(** * QR-remote-sensing: scene selection, boundary filter, clustering, mosaic script

    A shallow embedding of the three scripts of the repository

    - [scripts/mosaic_by_geojson.py]        (module [Mosaic]),
    - [scripts/select_scenes_flood_aware.py] (module [FloodAware]),
    - [scripts/select_scenes_to_shp.py]      (module [ToShp]),

    and the properties their specification states about them.

    Conventions of the embedding.
    - Python floats and NumPy float64 values are IEEE-754 binary64 numbers:
      Rocq's primitive [float], whose operations are specified by [SpecFloat].
      A JSON number is carried at its binary64 value.
    - A Python exception is the [Raised] case of [outcome]; a function that can
      raise returns an [outcome].
    - A Python dict that is iterated (the cluster map) is an association list in
      insertion order with distinct keys.
    - Calls into third-party libraries (Shapely's intersection test, scikit-learn's
      DBSCAN, NumPy's mean, the float formatter, GDAL) are oracles: section
      variables or fields of a [world] record.  Text written to standard output
      by [print] is not modelled, except the per-scene status line of the
      flood-aware selection, which is the log of decisions.
    - The shapefile writer is the list of polygons and records handed to it;
      the [.prj] file written after the loop is left out.  The mosaic script is
      the value written to the output path, with its mode. *)

From Stdlib Require Import ZArith List String Ascii Bool Lia Floats Uint63.
From Stdlib Require Import Permutation Sorted DecimalString.
Import ListNotations.

Set Implicit Arguments.
Set Warnings "-inexact-float,-register-all".

Open Scope list_scope.
Open Scope string_scope.

(** ** The Python runtime the scripts rely on *)

Module Py.

(** Exceptions, by class name. *)
Inductive exn : Type :=
| ValueError
| TypeError
| AttributeError
| KeyError
| IndexError
| OSError
| JSONDecodeError
| LibraryError.

Inductive outcome (A : Type) : Type :=
| Returned (a : A)
| Raised (e : exn).

Arguments Returned {A} a.
Arguments Raised {A} e.

Definition bind {A B : Type} (m : outcome A) (k : A -> outcome B) : outcome B :=
  match m with
  | Returned a => k a
  | Raised e => Raised e
  end.

Notation "x <- m ;; k" := (bind m (fun x => k))
  (at level 61, m at next level, right associativity).

(** [try: body except Exception: handler]. *)
Definition try_except {A : Type} (body : outcome A) (handler : exn -> outcome A)
  : outcome A :=
  match body with
  | Returned a => Returned a
  | Raised e => handler e
  end.

(** *** Strings *)

Definition dq : string := String "034"%char EmptyString.
Definition nl : string := String "010"%char EmptyString.

(** A double-quoted word. *)
Definition quoted (s : string) : string := dq ++ s ++ dq.

(** [str(n)] for a non-negative int and for any int. *)
Definition str_of_nat (n : nat) : string := NilEmpty.string_of_uint (Nat.to_uint n).
Definition str_of_Z (z : Z) : string := NilEmpty.string_of_int (Z.to_int z).

(** [sep.join(lines)]. *)
Definition join (sep : string) (lines : list string) : string :=
  String.concat sep lines.

(** [s.startswith(p)], and the rest of [s] after [p]. *)
Fixpoint strip_prefix (p s : string) : option string :=
  match p with
  | EmptyString => Some s
  | String a p' =>
      match s with
      | EmptyString => None
      | String b s' => if Ascii.eqb a b then strip_prefix p' s' else None
      end
  end.

Definition startswith (s p : string) : bool :=
  match strip_prefix p s with Some _ => true | None => false end.

Definition string_rev (s : string) : string :=
  string_of_list_ascii (rev (list_ascii_of_string s)).

(** [s.endswith(p)], and the part of [s] before [p]. *)
Definition strip_suffix (p s : string) : option string :=
  match strip_prefix (string_rev p) (string_rev s) with
  | Some r => Some (string_rev r)
  | None => None
  end.

Definition endswith (s p : string) : bool :=
  match strip_suffix p s with Some _ => true | None => false end.

(** [s.replace(pat, rep)] for a non-empty [pat]: every occurrence, found left
    to right and not overlapping.  [skip] counts the characters of an
    occurrence still to be dropped. *)
Fixpoint replace_from (pat rep : string) (skip : nat) (s : string) : string :=
  match s with
  | EmptyString => EmptyString
  | String c s' =>
      match skip with
      | S k => replace_from pat rep k s'
      | O =>
          if startswith s pat
          then rep ++ replace_from pat rep (String.length pat - 1) s'
          else String c (replace_from pat rep 0 s')
      end
  end.

Definition replace (s pat rep : string) : string := replace_from pat rep 0 s.

(** [os.path.join(a, b)] (posixpath, two components). *)
Definition path_join (a b : string) : string :=
  if startswith b "/" then b
  else if (String.eqb a EmptyString || endswith a "/")%bool then a ++ b
  else a ++ "/" ++ b.

(** *** Lists *)

(** [l.append(x)] and [l.extend(l2)]. *)
Definition append (A : Type) (l : list A) (x : A) : list A := (l ++ [x])%list.
Definition extend (A : Type) (l l2 : list A) : list A := (l ++ l2)%list.

(** *** Sorting

    [list.sort] and [sorted] are stable and compare keys with [<] only.  With
    [reverse=True] the list is reversed, sorted, and reversed back, which keeps
    the original order of elements with equal keys.  The sort itself is modelled
    by a stable insertion sort: on keys that [<] orders totally, every stable
    sort returns the same list. *)
Section Sort.
Variables (A K : Type) (lt : K -> K -> bool) (key : A -> K).

Fixpoint insert (x : A) (l : list A) : list A :=
  match l with
  | [] => [x]
  | y :: r => if lt (key x) (key y) then x :: y :: r else y :: insert x r
  end.

Definition sort_ascending (l : list A) : list A :=
  fold_left (fun acc x => insert x acc) l [].

Definition sorted (reverse : bool) (l : list A) : list A :=
  if reverse then rev (sort_ascending (rev l)) else sort_ascending l.
End Sort.

(** *** Floats *)

(** [max(xs)] and [min(xs)]: the first element stays unless a later one compares
    greater (smaller); an empty argument raises [ValueError]. *)
Definition max_float (xs : list float) : outcome float :=
  match xs with
  | [] => Raised ValueError
  | x :: r => Returned (fold_left (fun m v => if PrimFloat.ltb m v then v else m) r x)
  end.

Definition min_float (xs : list float) : outcome float :=
  match xs with
  | [] => Raised ValueError
  | x :: r => Returned (fold_left (fun m v => if PrimFloat.ltb v m then v else m) r x)
  end.

(** The float of a non-negative integer below 2^63 (a pixel count). *)
Definition float_of_Z (z : Z) : float := PrimFloat.of_uint63 (Uint63.of_Z z).

(** *** Insertion-ordered dicts with string keys *)
Section Dict.
Variable V : Type.

Definition dict : Type := list (string * V).

Fixpoint dict_get (k : string) (d : dict) : option V :=
  match d with
  | [] => None
  | (k', v) :: r => if String.eqb k k' then Some v else dict_get k r
  end.

Definition dict_mem (k : string) (d : dict) : bool :=
  match dict_get k d with Some _ => true | None => false end.

(** [d[k] = v]: an existing key keeps its place, a new key goes last. *)
Fixpoint dict_set (k : string) (v : V) (d : dict) : dict :=
  match d with
  | [] => [(k, v)]
  | (k', v') :: r =>
      if String.eqb k k' then (k', v) :: r else (k', v') :: dict_set k v r
  end.

(** [f] applied to the value stored at [k]. *)
Fixpoint dict_update (k : string) (f : V -> V) (d : dict) : dict :=
  match d with
  | [] => []
  | (k', v') :: r =>
      if String.eqb k k' then (k', f v') :: r else (k', v') :: dict_update k f r
  end.
End Dict.

(** [if k not in d: d[k] = []] followed by [d[k].append(x)]. *)
Definition dict_append (V : Type) (k : string) (x : V) (d : dict (list V))
  : dict (list V) :=
  dict_update k (fun l => append l x)
    (if dict_mem k d then d else dict_set k [] d).

End Py.

Import Py.

(** ** scripts/mosaic_by_geojson.py *)

Module Mosaic.

Definition point : Type := (float * float)%type.

(** A scene as [read_shapefile_scenes] builds it.  [polygon] is the Shapely
    polygon made from the footprint points. *)
Record scene : Type := {
  scene_id : string;
  tif_file : string;
  cloud_cov : float;
  water_pct : float;
  centroid : point;
  bbox_size : float * float;
  polygon : list point;
  geometry : list point
}.

(** The cluster map: cluster id to the scenes of the cluster. *)
Definition clusters : Type := dict (list scene).

Section Filter.
(** The boundary is any Shapely geometry; [intersects] is Shapely's
    [polygon.intersects(boundary)]. *)
Variable Geometry : Type.
Variable intersects : list point -> Geometry -> bool.

(** One turn of the loop of [filter_scenes_by_boundary]. *)
Definition filter_step (boundary : Geometry) (filtered : list scene) (sc : scene)
  : list scene :=
  if intersects (polygon sc) boundary then append filtered sc else filtered.

Definition filter_scenes_by_boundary (scenes : list scene) (boundary : Geometry)
  : list scene :=
  fold_left (filter_step boundary) scenes [].
End Filter.

Section Cluster.
(** [np.mean] of a non-empty list of floats. *)
Variable np_mean : list float -> float.
(** [DBSCAN(eps, min_samples, metric='euclidean').fit_predict(X)]: one label
    per row of [X], or the exception scikit-learn raises (for instance on a
    radius that is not positive). *)
Variable DBSCAN_fit_predict : float -> Z -> list point -> outcome (list Z).

Definition avg_scene_size (scenes : list scene) : float :=
  let avg_width := np_mean (map (fun s => fst (bbox_size s)) scenes) in
  let avg_height := np_mean (map (fun s => snd (bbox_size s)) scenes) in
  ((avg_width + avg_height) / 2)%float.

(** One turn of the loop that organizes scenes by cluster: the state is the
    cluster map and [noise_count]. *)
Definition organize_step (st : clusters * nat) (sl : scene * Z) : clusters * nat :=
  let '(cl, noise_count) := st in
  let '(sc, label) := sl in
  let '(noise_count, cluster_id) :=
    if (label =? -1)%Z
    then (S noise_count, "single_" ++ str_of_nat (S noise_count))
    else (noise_count, "cluster_" ++ str_of_Z (label + 1)) in
  (dict_append cluster_id sc cl, noise_count).

Definition organize (scenes : list scene) (labels : list Z) : clusters :=
  fst (fold_left organize_step (combine scenes labels) ([], 0)).

(** [clusters[cluster_id].sort(key=lambda s: s['cloud_cov'], reverse=True)]. *)
Definition sort_cluster (l : list scene) : list scene :=
  sorted PrimFloat.ltb cloud_cov true l.

(** The loop that sorts the scenes within each cluster. *)
Definition sort_each (cl : clusters) : clusters :=
  map (fun kv => (fst kv, sort_cluster (snd kv))) cl.

Definition cluster_scenes (scenes : list scene) (eps_factor : float) (min_samples : Z)
  : outcome clusters :=
  match scenes with
  | [] => Returned []
  | _ :: _ =>
      let centroids := map centroid scenes in
      let avg_size := avg_scene_size scenes in
      let eps := (eps_factor * avg_size)%float in
      labels <- DBSCAN_fit_predict eps min_samples centroids ;;
      let cl := organize scenes labels in
      Returned (sort_each cl)
  end.
End Cluster.

Section Script.
(** [f"{x:.0f}"]. *)
Variable format_0f : float -> string.

Definition default_otb_path : string :=
  "/Users/macbook/OTB-8.1.2-Darwin64/bin/otbcli_Mosaic".

Definition bar : string := "echo " ++ quoted "==========================================".

(** [script_lines] as first built: everything before the mosaic calls. *)
Definition header_lines (aoi_name otb_path data_dir output_dir : string)
  : list string :=
  [ "#!/bin/bash";
    "#";
    "# Auto-generated mosaic script for " ++ aoi_name;
    "# Scenes filtered by GeoJSON boundary and clustered spatially";
    "#";
    "";
    "# Configuration";
    "OTB_MOSAIC=" ++ quoted otb_path;
    "INPUT_DIR=" ++ quoted data_dir;
    "OUTPUT_DIR=" ++ quoted output_dir;
    "";
    "# Create output directory";
    "mkdir -p " ++ quoted "$OUTPUT_DIR";
    "";
    bar;
    "echo " ++ quoted ("PlanetScope Mosaic - " ++ aoi_name);
    "echo " ++ quoted "Scenes ordered by cloud cover (highest first = bottom)";
    bar;
    "echo " ++ quoted "Input directory: $INPUT_DIR";
    "echo " ++ quoted "Output directory: $OUTPUT_DIR";
    "echo " ++ quoted "";
    "";
    "# Function to mosaic a cluster";
    "mosaic_cluster() {";
    "    local cluster=$1";
    "    shift";
    "    local files=(" ++ quoted "$@" ++ ")";
    "";
    "    echo " ++ quoted "Processing Cluster $cluster (${#files[@]} scenes)...";
    "";
    "    # Build input list";
    "    local input_files=" ++ quoted "";
    "    for f in " ++ quoted "${files[@]}" ++ "; do";
    "        input_files=" ++ quoted ("$input_files \" ++ quoted "$INPUT_DIR/$f\");
    "    done";
    "";
    "    local output_file=" ++ quoted "$OUTPUT_DIR/mosaic_${cluster}.tif";
    "";
    "    # Run OTB Mosaic";
    "    eval " ++ quoted "$OTB_MOSAIC" ++ " \";
    "        -il $input_files \";
    "        -out " ++ quoted ("\" ++ quoted "$output_file\") ++ " uint16 \";
    "        -comp.feather large \";
    "        -harmo.method band \";
    "        -harmo.cost rmse \";
    "        -interpolator nn \";
    "        -nodata 0 \";
    "        2>&1 | grep -v " ++ quoted "^WARN";
    "";
    "    if [ -f " ++ quoted "$output_file" ++ " ]; then";
    "        echo " ++ quoted "  -> Created: $output_file";
    "    else";
    "        echo " ++ quoted "  -> ERROR creating mosaic for cluster $cluster";
    "    fi";
    "    echo " ++ quoted "";
    "}";
    "" ].

(** The completion message appended after the mosaic calls. *)
Definition footer_lines : list string :=
  [ bar;
    "echo " ++ quoted "Mosaic complete!";
    "echo " ++ quoted "Output files in: $OUTPUT_DIR";
    "ls -lh " ++ quoted "$OUTPUT_DIR" ++ "/mosaic_*.tif 2>/dev/null || echo "
      ++ quoted "No output files found";
    bar;
    "" ].

(** [enumerate(l)]. *)
Definition enumerate (A : Type) (l : list A) : list (nat * A) :=
  combine (seq 0 (List.length l)) l.

(** The line appended for scene number [i] of a cluster of [n] scenes. *)
Definition scene_line (n : nat) (i : nat) (sc : scene) : string :=
  if (Z.of_nat i <? Z.of_nat n - 1)%Z
  then "    " ++ quoted (tif_file sc) ++ " \"
  else "    " ++ quoted (tif_file sc).

(** The body of the loop over [sorted_clusters]: the comment, the call and
    its arguments, and an empty line, appended to [script_lines]. *)
Definition append_cluster (script_lines : list string) (item : string * list scene)
  : outcome (list string) :=
  let '(cluster_id, cluster_scene_list) := item in
  let scene_count := List.length cluster_scene_list in
  hi <- max_float (map cloud_cov cluster_scene_list) ;;
  lo <- min_float (map cloud_cov cluster_scene_list) ;;
  let cloud_range := format_0f hi ++ "% -> " ++ format_0f lo ++ "%" in
  let script_lines :=
    append script_lines
      ("# " ++ cluster_id ++ ": " ++ str_of_nat scene_count
         ++ " scenes (cloud cover: " ++ cloud_range ++ ")") in
  let script_lines := append script_lines ("mosaic_cluster " ++ cluster_id ++ " \") in
  let script_lines :=
    fold_left
      (fun lines isc => append lines (scene_line scene_count (fst isc) (snd isc)))
      (enumerate cluster_scene_list) script_lines in
  Returned (append script_lines "").

Fixpoint append_clusters (items : list (string * list scene))
  (script_lines : list string) : outcome (list string) :=
  match items with
  | [] => Returned script_lines
  | item :: rest =>
      script_lines <- append_cluster script_lines item ;;
      append_clusters rest script_lines
  end.

(** [sorted(clusters.items(), key=lambda x: len(x[1]), reverse=True)]. *)
Definition sort_clusters (cl : clusters) : list (string * list scene) :=
  sorted Nat.ltb (fun x => List.length (snd x)) true cl.

(** What [generate_mosaic_script] leaves behind: the file written, its mode,
    and the value returned. *)
Record script : Type := {
  script_path : string;
  script_lines : list string;
  script_text : string;
  script_mode : Z;
  sorted_clusters : list (string * list scene)
}.

Definition generate_mosaic_script (cl : clusters) (data_dir output_script aoi_name : string)
  (otb_path : option string) : outcome script :=
  let otb_path := match otb_path with None => default_otb_path | Some p => p end in
  let output_dir := path_join data_dir ("mosaic_" ++ aoi_name) in
  let lines := header_lines aoi_name otb_path data_dir output_dir in
  let sorted_cl := sort_clusters cl in
  lines <- append_clusters sorted_cl lines ;;
  let lines := extend lines footer_lines in
  Returned {| script_path := output_script;
              script_lines := lines;
              script_text := join nl lines;
              script_mode := 493;
              sorted_clusters := sorted_cl |}.
End Script.

End Mosaic.

(** ** JSON values as [json.load] returns them, and the file system *)

Module Json.

(** [None], [bool], a number, [str], [list], [dict] (keys distinct). *)
Inductive json : Type :=
| JNull
| JBool (b : bool)
| JNum (x : float)
| JStr (s : string)
| JArr (items : list json)
| JObj (members : list (string * json)).

(** [v.get(key, default)]: only a dict has [get]. *)
Definition get (v : json) (key : string) (default : json) : outcome json :=
  match v with
  | JObj members =>
      match dict_get key members with
      | Some x => Returned x
      | None => Returned default
      end
  | _ => Raised AttributeError
  end.

(** The value as an operand of float arithmetic and comparison: a number, or
    a bool (an int in Python); anything else makes the comparison raise. *)
Definition number (v : json) : outcome float :=
  match v with
  | JNum x => Returned x
  | JBool true => Returned 1%float
  | JBool false => Returned 0%float
  | _ => Raised TypeError
  end.

(** Truth value, as [if v] and [v and ...] test it. *)
Definition truthy (v : json) : bool :=
  match v with
  | JNull => false
  | JBool b => b
  | JNum x => negb (PrimFloat.eqb x 0)
  | JStr s => negb (String.eqb s EmptyString)
  | JArr items => match items with [] => false | _ => true end
  | JObj members => match members with [] => false | _ => true end
  end.

(** [v[0]]. *)
Definition item0 (v : json) : outcome json :=
  match v with
  | JArr (x :: _) => Returned x
  | JArr [] => Raised IndexError
  | JStr (String c _) => Returned (JStr (String c EmptyString))
  | JStr EmptyString => Raised IndexError
  | JObj _ => Raised KeyError
  | _ => Raised TypeError
  end.

(** [coords and coords[0]], as a condition. *)
Definition has_ring (coords : json) : outcome bool :=
  if truthy coords then (r <- item0 coords ;; Returned (truthy r))
  else Returned false.

End Json.

Import Json.

(** The directory the selection scripts read: [os.listdir], [os.path.exists],
    [open] followed by [json.load], and GDAL's rasters. *)
Module World.

(** A raster band read by [ReadAsArray], its rows laid end to end.  The bands
    of one product have one shape; arrays of different sizes do not combine. *)
Definition raster : Type := list Z.

(** An open GDAL dataset: [GetRasterBand(i).ReadAsArray()] raises (no such
    band), returns [None], or returns the array. *)
Record dataset : Type := {
  read_band : Z -> outcome (option raster)
}.

Record world : Type := {
  listdir : string -> outcome (list string);
  path_exists : string -> bool;
  load_json : string -> outcome json;
  (** [gdal.Open(path, GA_ReadOnly)]: raises, returns [None], or a dataset. *)
  gdal_open : string -> outcome (option dataset)
}.

End World.

Import World.

(** ** scripts/select_scenes_flood_aware.py *)

Module FloodAware.

(** The dict [detect_water_extent] returns. *)
Record water_info : Type := {
  water_pct : float;
  clear_pct : float;
  water_pixels : Z;
  clear_pixels : Z;
  total_pixels : Z
}.

Definition zero_result : water_info :=
  {| water_pct := 0; clear_pct := 0;
     water_pixels := 0; clear_pixels := 0; total_pixels := 0 |}.

(** A NumPy boolean mask, or the plain bool that comparing [None] gives. *)
Inductive mask : Type :=
| MScalar (b : bool)
| MArray (bits : list bool).

(** [a == v] for an array or [None]. *)
Definition eq_mask (a : option raster) (v : Z) : mask :=
  match a with
  | None => MScalar false
  | Some r => MArray (map (fun x => (x =? v)%Z) r)
  end.

(** [m1 & m2]: a scalar spreads over an array; arrays of different sizes do
    not combine. *)
Definition and_mask (m1 m2 : mask) : outcome mask :=
  match m1, m2 with
  | MScalar a, MScalar b => Returned (MScalar (a && b))
  | MScalar a, MArray bs => Returned (MArray (map (andb a) bs))
  | MArray bs, MScalar b => Returned (MArray (map (fun x => x && b) bs))
  | MArray bs1, MArray bs2 =>
      if (List.length bs1 =? List.length bs2)%nat
      then Returned (MArray (map (fun p => fst p && snd p) (combine bs1 bs2)))
      else Raised ValueError
  end.

(** [np.sum(m)]. *)
Definition sum_mask (m : mask) : Z :=
  match m with
  | MScalar b => if b then 1 else 0
  | MArray bs => Z.of_nat (List.length (filter (fun b => b) bs))
  end.

(** The [try] block of [detect_water_extent].  [result] is assigned only after
    the last operation that can raise, so an exception leaves it as it was. *)
Definition detect_body (w : world) (tif_path udm2_path : string) (nir_threshold : Z)
  (result : water_info) : outcome water_info :=
  ds <- gdal_open w tif_path ;;
  match ds with
  | None => Returned result
  | Some ds =>
      nir_data <- read_band ds 4 ;;
      udm2_ds <- gdal_open w udm2_path ;;
      match udm2_ds with
      | None => Returned result
      | Some udm2_ds =>
          clear_mask <- read_band udm2_ds 1 ;;
          cloud_mask <- read_band udm2_ds 6 ;;
          (* nir_data.size: None has no attribute size *)
          nir <- match nir_data with
                 | Some r => Returned r
                 | None => Raised AttributeError
                 end ;;
          let total := Z.of_nat (List.length nir) in
          m <- and_mask (eq_mask clear_mask 1) (eq_mask cloud_mask 0) ;;
          clear_pixels_mask <- and_mask m (MArray (map (fun x => (0 <? x)%Z) nir)) ;;
          let clear := sum_mask clear_pixels_mask in
          water_pixels_mask <-
            and_mask clear_pixels_mask (MArray (map (fun x => (x <? nir_threshold)%Z) nir)) ;;
          let water := sum_mask water_pixels_mask in
          let clear_pct' :=
            if (0 <? total)%Z
            then (float_of_Z clear / float_of_Z total * 100)%float
            else clear_pct result in
          let water_pct' :=
            if (0 <? clear)%Z
            then (float_of_Z water / float_of_Z clear * 100)%float
            else water_pct result in
          Returned {| water_pct := water_pct'; clear_pct := clear_pct';
                      water_pixels := water; clear_pixels := clear;
                      total_pixels := total |}
      end
  end.

Definition detect_water_extent (w : world) (tif_path udm2_path : string)
  (nir_threshold : Z) : outcome water_info :=
  let result := zero_result in
  if negb (path_exists w tif_path) then Returned result
  else if negb (path_exists w udm2_path) then Returned result
  else try_except (detect_body w tif_path udm2_path nir_threshold result)
                  (fun _ => Returned result).

(** The counters of [select_scenes_flood_aware]. *)
Record stats : Type := {
  total_scenes : nat;
  accepted : nat;
  rejected : nat;
  low_cloud_accept : nat;
  high_cloud_water_accept : nat;
  high_cloud_no_water_reject : nat
}.

Definition stats0 : stats :=
  {| total_scenes := 0; accepted := 0; rejected := 0; low_cloud_accept := 0;
     high_cloud_water_accept := 0; high_cloud_no_water_reject := 0 |}.

(** The status printed for a scene: the decision, the scene, the numbers it was
    taken on, and the reason. *)
Record status : Type := {
  st_selected : bool;
  st_base : string;
  st_cloud_cover : float;
  st_water : water_info;
  st_reason : string
}.

(** A record of the output shapefile. *)
Record shp_record : Type := {
  r_scene_id : string;
  r_acquired : json;
  r_cloud_cov : float;
  r_clear_pct : float;
  r_water_pct : float;
  r_gsd : json;
  r_satellite : json;
  r_sun_elev : json;
  r_sun_az : json;
  r_view_angle : json;
  r_tif_file : string;
  r_selection : string
}.

(** What the loop has done so far: the counters, the statuses printed, and the
    polygons and records handed to the shapefile writer. *)
Record state : Type := {
  s_stats : stats;
  s_log : list status;
  s_shapes : list (json * shp_record)
}.

Definition state0 : state := {| s_stats := stats0; s_log := []; s_shapes := [] |}.

Definition with_stats (f : stats -> stats) (s : state) : state :=
  {| s_stats := f (s_stats s); s_log := s_log s; s_shapes := s_shapes s |}.

Definition count_scene (st : stats) : stats :=
  {| total_scenes := S (total_scenes st); accepted := accepted st;
     rejected := rejected st; low_cloud_accept := low_cloud_accept st;
     high_cloud_water_accept := high_cloud_water_accept st;
     high_cloud_no_water_reject := high_cloud_no_water_reject st |}.

Definition count_accepted (st : stats) : stats :=
  {| total_scenes := total_scenes st; accepted := S (accepted st);
     rejected := rejected st; low_cloud_accept := low_cloud_accept st;
     high_cloud_water_accept := high_cloud_water_accept st;
     high_cloud_no_water_reject := high_cloud_no_water_reject st |}.

Definition count_rejected (st : stats) : stats :=
  {| total_scenes := total_scenes st; accepted := accepted st;
     rejected := S (rejected st); low_cloud_accept := low_cloud_accept st;
     high_cloud_water_accept := high_cloud_water_accept st;
     high_cloud_no_water_reject := high_cloud_no_water_reject st |}.

Definition count_low_cloud (st : stats) : stats :=
  {| total_scenes := total_scenes st; accepted := accepted st;
     rejected := rejected st; low_cloud_accept := S (low_cloud_accept st);
     high_cloud_water_accept := high_cloud_water_accept st;
     high_cloud_no_water_reject := high_cloud_no_water_reject st |}.

Definition count_high_cloud_water (st : stats) : stats :=
  {| total_scenes := total_scenes st; accepted := accepted st;
     rejected := rejected st; low_cloud_accept := low_cloud_accept st;
     high_cloud_water_accept := S (high_cloud_water_accept st);
     high_cloud_no_water_reject := high_cloud_no_water_reject st |}.

Definition count_high_cloud_no_water (st : stats) : stats :=
  {| total_scenes := total_scenes st; accepted := accepted st;
     rejected := rejected st; low_cloud_accept := low_cloud_accept st;
     high_cloud_water_accept := high_cloud_water_accept st;
     high_cloud_no_water_reject := S (high_cloud_no_water_reject st) |}.

(** "Determine selection": [selected], [selection_reason] and the counter that
    goes up. *)
Definition determine_selection (cloud_cover cloud_max water min_water_pct : float)
  (st : stats) : bool * string * stats :=
  if PrimFloat.leb cloud_cover cloud_max
  then (true, "low_cloud", count_low_cloud st)
  else if PrimFloat.leb min_water_pct water
       then (true, "high_cloud_water", count_high_cloud_water st)
       else (false, "high_cloud_no_water", count_high_cloud_no_water st).

Definition tif_suffix : string := "_3B_AnalyticMS_SR_file_format.tif".
Definition udm2_suffix : string := "_3B_udm2_file_format.tif".

Section Loop.
Variable w : world.
Variables (input_dir : string) (cloud_max : float) (nir_threshold : Z)
          (min_water_pct : float).

(** The metadata of a scene: [data], [props], and [cloud_cover] in percent.
    A [cloud_cover] that is not a number raises [TypeError], at the product
    or at the comparison with [cloud_max]. *)
Definition read_metadata (f : string) : outcome (json * json * float) :=
  data <- load_json w (path_join input_dir f) ;;
  props <- get data "properties" data ;;
  v <- get props "cloud_cover" (JNum 1) ;;
  x <- number v ;;
  Returned (data, props, (x * 100)%float).

(** The geometry of a selected scene and its record, when the STAC file
    gives a ring. *)
Definition read_shape (stac_file base reason : string) (data props : json)
  (cloud_cover : float) (water : water_info) : outcome (option (json * shp_record)) :=
  stac <- load_json w stac_file ;;
  fallback <- get data "geometry" (JObj []) ;;
  geom <- get stac "geometry" fallback ;;
  coords <- get geom "coordinates" (JArr [JArr []]) ;;
  ok <- has_ring coords ;;
  if ok then
    ring <- item0 coords ;;
    acquired <- get props "acquired" (JStr EmptyString) ;;
    gsd <- get props "gsd" (JNum 3) ;;
    satellite <- get props "satellite_id" (JStr EmptyString) ;;
    sun_elev <- get props "sun_elevation" (JNum 0) ;;
    sun_az <- get props "sun_azimuth" (JNum 0) ;;
    view_angle <- get props "view_angle" (JNum 0) ;;
    Returned (Some (JArr [ring],
      {| r_scene_id := base; r_acquired := acquired; r_cloud_cov := cloud_cover;
         r_clear_pct := clear_pct water; r_water_pct := water_pct water;
         r_gsd := gsd; r_satellite := satellite; r_sun_elev := sun_elev;
         r_sun_az := sun_az; r_view_angle := view_angle;
         r_tif_file := base ++ tif_suffix; r_selection := reason |}))
  else Returned None.

(** The body of the loop over [metadata_files]: the state after it, and
    whether it raised. *)
Definition process_scene (f : string) (s : state) : state * outcome unit :=
  let s := with_stats count_scene s in
  match read_metadata f with
  | Raised e => (s, Raised e)
  | Returned (data, props, cloud_cover) =>
      let base := replace f "_metadata.json" "" in
      let stac_file := path_join input_dir (base ++ ".json") in
      let tif_file := path_join input_dir (base ++ tif_suffix) in
      let udm2_file := path_join input_dir (base ++ udm2_suffix) in
      match detect_water_extent w tif_file udm2_file nir_threshold with
      | Raised e => (s, Raised e)
      | Returned water =>
          let '(selected, reason, st) :=
            determine_selection cloud_cover cloud_max (water_pct water)
              min_water_pct (s_stats s) in
          let s :=
            {| s_stats := st;
               s_log := append (s_log s)
                          {| st_selected := selected; st_base := base;
                             st_cloud_cover := cloud_cover; st_water := water;
                             st_reason := reason |};
               s_shapes := s_shapes s |} in
          if selected then
            let s := with_stats count_accepted s in
            if path_exists w stac_file then
              match read_shape stac_file base reason data props cloud_cover water with
              | Raised e => (s, Raised e)
              | Returned None => (s, Returned tt)
              | Returned (Some shape) =>
                  ({| s_stats := s_stats s; s_log := s_log s;
                      s_shapes := append (s_shapes s) shape |}, Returned tt)
              end
            else (s, Returned tt)
          else (with_stats count_rejected s, Returned tt)
      end
  end.

(** [for f in files: body], stopping at the first exception. *)
Fixpoint for_each (files : list string) (s : state) : state * outcome unit :=
  match files with
  | [] => (s, Returned tt)
  | f :: rest =>
      match process_scene f s with
      | (s', Returned _) => for_each rest s'
      | (s', Raised e) => (s', Raised e)
      end
  end.

(** [sorted([f for f in os.listdir(input_dir) if f.endswith('_metadata.json')])]. *)
Definition metadata_files (names : list string) : list string :=
  sorted String.ltb (fun f => f) false
    (filter (fun f => endswith f "_metadata.json") names).

(** The run: the state the loop reached, and the statistics returned unless
    an exception ended it. *)
Definition select_scenes_flood_aware : state * outcome stats :=
  match listdir w input_dir with
  | Raised e => (state0, Raised e)
  | Returned names =>
      match for_each (metadata_files names) state0 with
      | (s, Returned _) => (s, Returned (s_stats s))
      | (s, Raised e) => (s, Raised e)
      end
  end.
End Loop.

End FloodAware.

(** ** scripts/select_scenes_to_shp.py *)

Module ToShp.

(** A record of the output shapefile. *)
Record shp_record : Type := {
  r_scene_id : string;
  r_acquired : json;
  r_cloud_cov : float;
  r_clear_pct : json;
  r_gsd : json;
  r_satellite : json;
  r_sun_elev : json;
  r_sun_az : json;
  r_view_angle : json;
  r_tif_file : string
}.

(** The file operations of the loop, in the order they happen: a metadata
    file opened and loaded, the test whether the STAC file of a scene that
    passed the filter exists, that file opened and loaded, and a polygon with
    its record handed to the shapefile writer. *)
Inductive event : Type :=
| ReadMetadata (path : string)
| CheckStac (path : string)
| ReadStac (path : string)
| WriteShape (poly : json) (rec : shp_record).

Record state : Type := {
  trace : list event;
  count : nat
}.

Definition state0 : state := {| trace := []; count := 0 |}.

Definition log (e : event) (s : state) : state :=
  {| trace := append (trace s) e; count := count s |}.

Section Loop.
Variable w : world.
Variables (input_dir : string) (cloud_max : float).

(** "Convert threshold to decimal (0-1)". *)
Definition cloud_threshold : float := (cloud_max / 100)%float.

(** [data], [props] and the [cloud_cover] entry of a metadata file. *)
Definition read_metadata (metadata_path : string) : outcome (json * json * json) :=
  data <- load_json w metadata_path ;;
  props <- get data "properties" data ;;
  v <- get props "cloud_cover" (JNum 1) ;;
  Returned (data, props, v).

(** The geometry of a scene that passed and its record, when the STAC file
    gives a ring. *)
Definition read_shape (stac_file base : string) (data props : json)
  (cloud_cover : float) : outcome (option (json * shp_record)) :=
  stac <- load_json w stac_file ;;
  fallback <- get data "geometry" (JObj []) ;;
  geom <- get stac "geometry" fallback ;;
  coords <- get geom "coordinates" (JArr [JArr []]) ;;
  ok <- has_ring coords ;;
  if ok then
    ring <- item0 coords ;;
    let tif_file := base ++ "_3B_AnalyticMS_SR_file_format.tif" in
    acquired <- get props "acquired" (JStr EmptyString) ;;
    clear <- get props "clear_percent" (JNum 0) ;;
    gsd <- get props "gsd" (JNum 3) ;;
    satellite <- get props "satellite_id" (JStr EmptyString) ;;
    sun_elev <- get props "sun_elevation" (JNum 0) ;;
    sun_az <- get props "sun_azimuth" (JNum 0) ;;
    view_angle <- get props "view_angle" (JNum 0) ;;
    Returned (Some (JArr [ring],
      {| r_scene_id := base; r_acquired := acquired;
         r_cloud_cov := (cloud_cover * 100)%float; r_clear_pct := clear;
         r_gsd := gsd; r_satellite := satellite; r_sun_elev := sun_elev;
         r_sun_az := sun_az; r_view_angle := view_angle;
         r_tif_file := tif_file |}))
  else Returned None.

(** The body of the loop over the sorted directory listing. *)
Definition process_file (f : string) (s : state) : state * outcome unit :=
  if endswith f "_metadata.json" then
    let metadata_path := path_join input_dir f in
    let s := log (ReadMetadata metadata_path) s in
    match read_metadata metadata_path with
    | Raised e => (s, Raised e)
    | Returned (data, props, v) =>
        (* cloud_cover <= cloud_threshold *)
        match number v with
        | Raised e => (s, Raised e)
        | Returned cloud_cover =>
            if PrimFloat.leb cloud_cover cloud_threshold then
              let base := replace f "_metadata.json" "" in
              let stac_file := path_join input_dir (base ++ ".json") in
              let s := log (CheckStac stac_file) s in
              if path_exists w stac_file then
                let s := log (ReadStac stac_file) s in
                match read_shape stac_file base data props cloud_cover with
                | Raised e => (s, Raised e)
                | Returned None => (s, Returned tt)
                | Returned (Some (poly, rec)) =>
                    ({| trace := append (trace s) (WriteShape poly rec);
                        count := S (count s) |}, Returned tt)
                end
              else (s, Returned tt)
            else (s, Returned tt)
        end
    end
  else (s, Returned tt).

Fixpoint for_each (files : list string) (s : state) : state * outcome unit :=
  match files with
  | [] => (s, Returned tt)
  | f :: rest =>
      match process_file f s with
      | (s', Returned _) => for_each rest s'
      | (s', Raised e) => (s', Raised e)
      end
  end.

(** The run: the file operations made, and the count returned unless an
    exception ended the run. *)
Definition select_scenes_to_shapefile : state * outcome nat :=
  match listdir w input_dir with
  | Raised e => (state0, Raised e)
  | Returned names =>
      match for_each (sorted String.ltb (fun f => f) false names) state0 with
      | (s, Returned _) => (s, Returned (count s))
      | (s, Raised e) => (s, Raised e)
      end
  end.
End Loop.

End ToShp.

(** ** Definitions the statements use *)

(** Reading a generated script back, the way the shell splits it into
    commands: a line [mosaic_cluster ID \] opens a call; each following line
    made of four spaces and a quoted word is one argument of the call, and the
    call goes on while the argument line ends in a backslash. *)
Module ScriptReader.

(** The cluster id of a line that opens a call. *)
Definition read_call (line : string) : option string :=
  match strip_prefix "mosaic_cluster " line with
  | Some rest => strip_suffix " \" rest
  | None => None
  end.

(** The word of an argument line, and whether the call goes on after it. *)
Definition read_argument (line : string) : option (string * bool) :=
  match strip_prefix ("    " ++ dq) line with
  | None => None
  | Some rest =>
      match strip_suffix (dq ++ " \") rest with
      | Some name => Some (name, true)
      | None =>
          match strip_suffix dq rest with
          | Some name => Some (name, false)
          | None => None
          end
      end
  end.

(** The calls read so far, and the call being read. *)
Definition reader : Type :=
  (list (string * list string) * option (string * list string))%type.

Definition read_outside (calls : list (string * list string)) (line : string)
  : reader :=
  match read_call line with
  | Some id => (calls, Some (id, []))
  | None => (calls, None)
  end.

Definition read_line (st : reader) (line : string) : reader :=
  match st with
  | (calls, None) => read_outside calls line
  | (calls, Some (id, args)) =>
      match read_argument line with
      | Some (name, true) => (calls, Some (id, append args name))
      | Some (name, false) => (append calls (id, append args name), None)
      | None => read_outside (append calls (id, args)) line
      end
  end.

Definition finish (st : reader) : list (string * list string) :=
  match st with
  | (calls, None) => calls
  | (calls, Some c) => append calls c
  end.

(** The calls of [mosaic_cluster] in a script, each with its arguments. *)
Definition read_invocations (lines : list string) : list (string * list string) :=
  finish (fold_left read_line lines ([], None)).

End ScriptReader.

(** The quantities of the specification, in its words. *)
Module Spec.
Import Mosaic.

(** The mean of two numbers. *)
Definition mean_of_two (a b : float) : float := ((a + b) / 2)%float.

(** "the mean of the scenes' mean bounding-box width and mean bounding-box
    height". *)
Definition average_scene_size (np_mean : list float -> float) (scenes : list scene)
  : float :=
  mean_of_two (np_mean (map (fun s => fst (bbox_size s)) scenes))
              (np_mean (map (fun s => snd (bbox_size s)) scenes)).

(** "eps_factor times the average scene size". *)
Definition density_radius (np_mean : list float -> float) (eps_factor : float)
  (scenes : list scene) : float :=
  (eps_factor * average_scene_size np_mean scenes)%float.

(** What each cluster of a cluster map lists: its id and the file names of
    its scenes, in order. *)
Definition listing (cl : list (string * list scene)) : list (string * list string) :=
  map (fun kv => (fst kv, map tif_file (snd kv))) cl.

(** The scenes of a cluster map, cluster after cluster. *)
Definition all_scenes (cl : clusters) : list scene := List.concat (map snd cl).

(** Distinct cluster ids, and no cluster without a scene. *)
Definition well_formed (cl : clusters) : Prop :=
  NoDup (map fst cl) /\ Forall (fun kv => snd kv <> []) cl.

(** The argument lines of a call: a quoted file name on each, and a
    backslash after each but the last. *)
Fixpoint argument_lines (l : list scene) : list string :=
  match l with
  | [] => []
  | sc :: r =>
      match r with
      | [] => ["    " ++ quoted (tif_file sc)]
      | _ :: _ => ("    " ++ quoted (tif_file sc) ++ " \") :: argument_lines r
      end
  end.

(** The lines of a cluster in the script, under its comment line. *)
Definition cluster_lines (comment id : string) (l : list scene) : list string :=
  comment :: ("mosaic_cluster " ++ id ++ " \") :: (argument_lines l ++ [""])%list.




(** A raster file GDAL does not open: [gdal.Open] returns [None] or raises. *)
Definition cannot_open (w : world) (path : string) : Prop :=
  gdal_open w path = Returned None \/ exists e, gdal_open w path = Raised e.

(** The decision of the flood-aware selection and its reason, as its
    documentation words it. *)
Definition decision (cloud_cover cloud_max water min_water_pct : float)
  : bool * string :=
  if PrimFloat.leb cloud_cover cloud_max then (true, "low_cloud")
  else if PrimFloat.leb min_water_pct water then (true, "high_cloud_water")
  else (false, "high_cloud_no_water").

(** The two imagery files of a scene. *)
Definition tif_path (input_dir base : string) : string :=
  path_join input_dir (base ++ FloodAware.tif_suffix).
Definition udm2_path (input_dir base : string) : string :=
  path_join input_dir (base ++ FloodAware.udm2_suffix).

(** A printed status is right: the water figures are those detected for the
    scene, and the decision is the one taken on the numbers printed. *)
Definition status_ok (w : world) (input_dir : string) (cloud_max : float)
  (nir_threshold : Z) (min_water_pct : float) (r : FloodAware.status) : Prop :=
  FloodAware.detect_water_extent w (tif_path input_dir (FloodAware.st_base r))
    (udm2_path input_dir (FloodAware.st_base r)) nir_threshold
    = Returned (FloodAware.st_water r)
  /\ (FloodAware.st_selected r, FloodAware.st_reason r) =
     decision (FloodAware.st_cloud_cover r) cloud_max
       (FloodAware.water_pct (FloodAware.st_water r)) min_water_pct.

(** The counters agree with the statuses printed. *)
Definition counters_agree (s : FloodAware.state) : Prop :=
let st := FloodAware.s_stats s in
let selected := filter FloodAware.st_selected (FloodAware.s_log s) in
let others := filter (fun r => negb (FloodAware.st_selected r)) (FloodAware.s_log s) in
FloodAware.accepted st = List.length selected
/\ FloodAware.rejected st = List.length others
/\ FloodAware.low_cloud_accept st + FloodAware.high_cloud_water_accept st
   = List.length selected
/\ FloodAware.high_cloud_no_water_reject st = List.length others.

(** The metadata files a run of [select_scenes_to_shapefile] opened, and the
    STAC files it looked for, in the order it did. *)
Definition metadata_reads (t : list ToShp.event) : list string :=
  flat_map (fun e => match e with ToShp.ReadMetadata p => [p] | _ => [] end) t.
Definition stac_checks (t : list ToShp.event) : list string :=
  flat_map (fun e => match e with ToShp.CheckStac p => [p] | _ => [] end) t.

Definition is_metadata (f : string) : bool := endswith f "_metadata.json".

(** The STAC file that goes with a metadata file. *)
Definition stac_path (input_dir f : string) : string :=
  path_join input_dir (replace f "_metadata.json" "" ++ ".json").

(** "its cloud_cover value (a decimal in 0-1, defaulting to 1.0 when
    absent)": the entry of the properties of the metadata (of the metadata
    itself when it has no properties). *)
Definition cloud_cover_value (w : world) (metadata_path : string) : outcome float :=
  data <- load_json w metadata_path ;;
  props <- get data "properties" data ;;
  match props with
  | JObj members =>
      match dict_get "cloud_cover" members with
      | Some v => number v
      | None => Returned 1%float
      end
  | _ => Raised AttributeError
  end.

(** "is <= cloud_max / 100". *)
Definition passes (w : world) (input_dir : string) (cloud_max : float) (f : string)
  : bool :=
  match cloud_cover_value w (path_join input_dir f) with
  | Returned x => PrimFloat.leb x (cloud_max / 100)
  | Raised _ => false
  end.

(** Ascending order of file names. *)
Definition names_ascending (l : list string) : Prop :=
  Sorted (fun a b => String.ltb b a = false) l.
End Spec.

(** ** Sample inputs *)

Module Examples.
Import Mosaic.

Definition footprint (x y : float) : list point :=
  [(x, y); (x + 1, y); (x + 1, y + 1); (x, y + 1)]%float.

(** A scene with a unit-square footprint whose lower left corner is [(x, y)]. *)
Definition scene_at (name : string) (cloud : float) (x y : float) : scene :=
  {| scene_id := name;
     tif_file := name ++ "_3B_AnalyticMS_SR_file_format.tif";
     cloud_cov := cloud;
     water_pct := 0;
     centroid := (x + 0.5, y + 0.5)%float;
     bbox_size := (1, 1)%float;
     polygon := footprint x y;
     geometry := footprint x y |}.

Definition four_scenes : list scene :=
  [ scene_at "s1" 10 0 0; scene_at "s2" 85 1 0;
    scene_at "s3" 40 0 1; scene_at "s4" 20 50 50 ].

(** Stand-ins for the library routines: a mean that sums from left to right,
    a clustering that puts the points west of [x = 10] in one cluster and
    calls the others noise, a formatter, and an intersection test against
    the half plane west of a bound. *)
Definition mean (l : list float) : float :=
  (fold_left PrimFloat.add l 0 / float_of_Z (Z.of_nat (List.length l)))%float.

Definition west_cluster (eps : float) (min_samples : Z) (X : list point)
  : outcome (list Z) :=
  Returned (map (fun p => if PrimFloat.ltb (fst p) 10 then 0%Z else (-1)%Z) X).

Definition no_digits (x : float) : string := "0".

Definition reaches_west (pts : list point) (bound : float) : bool :=
  existsb (fun p => PrimFloat.ltb (fst p) bound) pts.

Definition two_clusters : clusters :=
  [ ("single_1", [scene_at "s4" 20 50 50]);
    ("cluster_1", [scene_at "s2" 85 1 0; scene_at "s3" 40 0 1; scene_at "s1" 10 0 0]) ].

(** A directory with four scenes: [a] under the cloud threshold with its
    STAC file, [b] cloudy without imagery, [c] cloudy with imagery that shows
    water, [d] without a [cloud_cover] entry. *)
Definition metadata (cloud : float) : json :=
  JObj [("properties", JObj [("cloud_cover", JNum cloud); ("acquired", JStr "2024-03-01")])].

Definition stac : json :=
  JObj [("geometry",
         JObj [("coordinates",
                JArr [JArr [JArr [JNum 0; JNum 0]; JArr [JNum 1; JNum 0];
                            JArr [JNum 1; JNum 1]; JArr [JNum 0; JNum 0]]])])].

Definition analytic : dataset :=
  {| read_band := fun i =>
       if (i =? 4)%Z then Returned (Some [500; 2000; 300; 0]%Z)
       else Raised LibraryError |}.

Definition udm2 : dataset :=
  {| read_band := fun i =>
       if (i =? 1)%Z then Returned (Some [1; 1; 1; 1]%Z)
       else if (i =? 6)%Z then Returned (Some [0; 0; 1; 0]%Z)
       else Raised LibraryError |}.

Definition site : world :=
  {| listdir := fun d =>
       if String.eqb d "in"
       then Returned ["c_metadata.json"; "a_metadata.json"; "notes.txt";
                      "d_metadata.json"; "b_metadata.json"]
       else Raised OSError;
     path_exists := fun p =>
       existsb (String.eqb p)
         ["in/a.json"; "in/c_3B_AnalyticMS_SR_file_format.tif";
          "in/c_3B_udm2_file_format.tif"];
     load_json := fun p =>
       if String.eqb p "in/a_metadata.json" then Returned (metadata 0.5)
       else if String.eqb p "in/b_metadata.json" then Returned (metadata 0.875)
       else if String.eqb p "in/c_metadata.json" then Returned (metadata 0.9375)
       else if String.eqb p "in/d_metadata.json" then Returned (JObj [])
       else if String.eqb p "in/a.json" then Returned stac
       else Raised OSError;
     gdal_open := fun p =>
       if String.eqb p "in/c_3B_AnalyticMS_SR_file_format.tif"
       then Returned (Some analytic)
       else if String.eqb p "in/c_3B_udm2_file_format.tif"
       then Returned (Some udm2)
       else Returned None |}.

Definition flood_run : FloodAware.state * outcome FloodAware.stats :=
  FloodAware.select_scenes_flood_aware site "in" 80 1000 1.

Definition shp_run : ToShp.state * outcome nat :=
  ToShp.select_scenes_to_shapefile site "in" 60.

(** The status the flood-aware run prints for scene [b]. *)
Definition status_b : FloodAware.status :=
  {| FloodAware.st_selected := false;
     FloodAware.st_base := "b";
     FloodAware.st_cloud_cover := 87.5;
     FloodAware.st_water := FloodAware.zero_result;
     FloodAware.st_reason := "high_cloud_no_water" |}.

(** The status of a scene whose metadata gives a cloud cover that is not a
    number, with water detected: what the decision does there. *)
Definition nan_decision : bool * string * FloodAware.stats :=
  FloodAware.determine_selection PrimFloat.nan 80 5 1 FloodAware.stats0.
End Examples.

(** ** scripts/mosaic_by_geojson.py: the boundary file and [main] *)

Module MosaicMain.
Import Mosaic.

(** [v[key]] for a string key: only a dict has string keys, and a key it
    lacks raises [KeyError]. *)
Definition item (v : json) (key : string) : outcome json :=
match v with
| JObj members =>
    match dict_get key members with
    | Some x => Returned x
    | None => Raised KeyError
    end
| _ => Raised TypeError
end.

(** The values [for x in v] goes through: the items of a list, the keys of a
    dict, the characters of a string. *)
Definition iterate (v : json) : outcome (list json) :=
match v with
| JArr items => Returned items
| JObj members => Returned (map (fun kv => JStr (fst kv)) members)
| JStr s => Returned (map (fun c => JStr (String c EmptyString)) (list_ascii_of_string s))
| _ => Raised TypeError
end.

(** [v == s] for a string literal [s]. *)
Definition is_str (v : json) (s : string) : bool :=
match v with
| JStr t => String.eqb t s
| _ => false
end.

(** [[f(x) for x in l]]: the first exception ends the comprehension. *)
Fixpoint for_list (A B : Type) (f : A -> outcome B) (l : list A) : outcome (list B) :=
match l with
| [] => Returned []
| x :: r => y <- f x ;; ys <- for_list f r ;; Returned (y :: ys)
end.

Section Boundary.
Variable Geometry : Type.
(** [shapely.geometry.shape] and [shapely.ops.unary_union]. *)
Variable shape : json -> outcome Geometry.
Variable unary_union : list Geometry -> outcome Geometry.

(** [read_geojson_boundary] once the file is loaded. *)
Definition boundary_of (geojson_data : json) : outcome Geometry :=
t <- item geojson_data "type" ;;
if is_str t "FeatureCollection" then
  features <- item geojson_data "features" ;;
  features <- iterate features ;;
  geometries <- for_list (fun feature => g <- item feature "geometry" ;; shape g)
                  features ;;
  match geometries with
  | [g] => Returned g
  | _ => unary_union geometries
  end
else if is_str t "Feature" then
  g <- item geojson_data "geometry" ;; shape g
else shape geojson_data.

Definition read_geojson_boundary (w : world) (geojson_path : string)
  : outcome Geometry :=
geojson_data <- load_json w geojson_path ;;
boundary_of geojson_data.
End Boundary.

(** [os.path.basename]: what follows the last slash. *)
Fixpoint after_last (c : ascii) (s : string) : option string :=
match s with
| EmptyString => None
| String a r =>
    match after_last c r with
    | Some t => Some t
    | None => if Ascii.eqb a c then Some r else None
    end
end.

Definition basename (p : string) : string :=
match after_last "/" p with
| Some t => t
| None => p
end.

(** [os.path.splitext(name)[0]] for a name without a slash: the name up to its
    last dot, unless nothing but dots comes before that dot. *)
Definition splitext_root (name : string) : string :=
match after_last "." name with
| None => name
| Some ext =>
    let root := substring 0 (String.length name - String.length ext - 1) name in
    if existsb (fun a => negb (Ascii.eqb a ".")) (list_ascii_of_string root)
    then root else name
end.

(** The parsed command line. *)
Record args : Type := {
  a_shapefile : string;
  a_geojson : string;
  a_data_dir : string;
  a_output_script : string;
  a_otb_path : option string;
  a_eps_factor : float;
  a_min_samples : Z
}.

(** How [main] ends: [sys.exit(code)], an exception, or the script written. *)
Inductive ending : Type :=
| Exit (code : Z)
| Failed (e : exn)
| Success (s : script).

(** The cluster summary [main] prints: [min] and [max] of the cloud cover of
    each cluster, and an average over the scene count, which is not zero once
    [min] has returned. *)
Fixpoint summary (items : list (string * list scene)) : outcome unit :=
match items with
| [] => Returned tt
| (_, cluster_scene_list) :: rest =>
    _ <- min_float (map cloud_cov cluster_scene_list) ;;
    _ <- max_float (map cloud_cov cluster_scene_list) ;;
    summary rest
end.

Section Main.
Variable Geometry : Type.
Variable shape : json -> outcome Geometry.
Variable unary_union : list Geometry -> outcome Geometry.
Variable intersects : list point -> Geometry -> bool.
Variable np_mean : list float -> float.
Variable DBSCAN_fit_predict : float -> Z -> list point -> outcome (list Z).
Variable format_0f : float -> string.
(** [os.path.isdir], and [read_shapefile_scenes], which is calls into pyshp
    and Shapely: the scenes it returns, or its exception. *)
Variable isdir : string -> bool.
Variable read_shapefile_scenes : string -> outcome (list scene).
Variable w : world.

(** [main] after the command line is parsed. *)
Definition main (a : args) : ending :=
if negb (path_exists w (a_shapefile a)) then Exit 1
else if negb (path_exists w (a_geojson a)) then Exit 1
else if negb (isdir (a_data_dir a)) then Exit 1
else
  let aoi_name := splitext_root (basename (a_geojson a)) in
  match read_geojson_boundary shape unary_union w (a_geojson a) with
  | Raised e => Failed e
  | Returned boundary =>
      match read_shapefile_scenes (a_shapefile a) with
      | Raised e => Failed e
      | Returned all_scenes =>
          let filtered_scenes := filter_scenes_by_boundary intersects all_scenes boundary in
          match filtered_scenes with
          | [] => Exit 1
          | _ :: _ =>
              match cluster_scenes np_mean DBSCAN_fit_predict filtered_scenes
                      (a_eps_factor a) (a_min_samples a) with
              | Raised e => Failed e
              | Returned clusters =>
                  match summary (sort_clusters clusters) with
                  | Raised e => Failed e
                  | Returned _ =>
                      match generate_mosaic_script format_0f clusters (a_data_dir a)
                              (a_output_script a) aoi_name (a_otb_path a) with
                      | Raised e => Failed e
                      | Returned s => Success s
                      end
                  end
              end
          end
      end
  end.
End Main.

End MosaicMain.

(** ** Definitions the further statements use *)

Module Terms.
Import Mosaic.




Definition count (A : Type) (f : A -> bool) (l : list A) : Z :=
Z.of_nat (List.length (filter f l)).


(** The shape written for a status: same scene, same numbers, same reason. *)
Definition shape_of_status (sh : json * FloodAware.shp_record) (r : FloodAware.status)
  : Prop :=
FloodAware.st_selected r = true
/\ FloodAware.r_scene_id (snd sh) = FloodAware.st_base r
/\ FloodAware.r_selection (snd sh) = FloodAware.st_reason r
/\ FloodAware.r_cloud_cov (snd sh) = FloodAware.st_cloud_cover r
/\ FloodAware.r_water_pct (snd sh) = FloodAware.water_pct (FloodAware.st_water r)
/\ FloodAware.r_clear_pct (snd sh) = FloodAware.clear_pct (FloodAware.st_water r)
/\ FloodAware.r_tif_file (snd sh)
   = (FloodAware.st_base r ++ "_3B_AnalyticMS_SR_file_format.tif")%string.

(** The records a run of [select_scenes_to_shapefile] wrote. *)
Definition records_written (t : list ToShp.event) : list ToShp.shp_record :=
flat_map (fun e => match e with ToShp.WriteShape _ r => [r] | _ => [] end) t.

(** The clusters of isolated scenes, by their ids. *)
Definition is_single (kv : string * list scene) : bool := startswith (fst kv) "single_".



(** What the flood-aware loop keeps true of the shapes handed to the writer. *)
Definition shapes_ok (s : FloodAware.state) : Prop :=
Forall (fun sh => exists r, In r (FloodAware.s_log s) /\ shape_of_status sh r)
  (FloodAware.s_shapes s)
/\ List.length (FloodAware.s_shapes s) <= FloodAware.accepted (FloodAware.s_stats s).

(** A record of [select_scenes_to_shapefile] is right: it comes from a
    metadata file within the cloud threshold whose STAC file exists. *)
Definition record_ok (w : world) (input_dir : string) (cloud_max : float)
  (rec : ToShp.shp_record) : Prop :=
exists f x,
  Spec.is_metadata f = true
  /\ Spec.cloud_cover_value w (path_join input_dir f) = Returned x
  /\ PrimFloat.leb x (cloud_max / 100) = true
  /\ path_exists w (Spec.stac_path input_dir f) = true
  /\ ToShp.r_scene_id rec = replace f "_metadata.json" ""
  /\ ToShp.r_cloud_cov rec = (x * 100)%float
  /\ ToShp.r_tif_file rec
     = (ToShp.r_scene_id rec ++ "_3B_AnalyticMS_SR_file_format.tif")%string.

(** The count and the records written agree, and the records are right. *)
Definition written_ok (w : world) (input_dir : string) (cloud_max : float)
  (s : ToShp.state) : Prop :=
ToShp.count s = List.length (records_written (ToShp.trace s))
/\ Forall (record_ok w input_dir cloud_max) (records_written (ToShp.trace s)).
(** The id [cluster_scenes] gives the cluster of a label that is not noise,
    and the scenes that got a label, in input order. *)
Definition cluster_id (label : Z) : string := "cluster_" ++ str_of_Z (label + 1).


(** What the organizing loop keeps true: the clusters of isolated scenes are
    [single_1] to [single_n] for the [n] noise labels seen, one scene each. *)
Definition singles_ok (st : clusters * nat) : Prop :=
map fst (filter is_single (fst st))
= map (fun j => "single_" ++ str_of_nat j) (seq 1 (snd st))
/\ Forall (fun kv => is_single kv = true -> List.length (snd kv) = 1) (fst st).
(** [text.split(newline)]: what lies between the newlines of a text. *)
Fixpoint split_lines (s : string) : list string :=
match s with
| EmptyString => [EmptyString]
| String c r =>
    if Ascii.eqb c "010" then EmptyString :: split_lines r
    else match split_lines r with
         | l :: ls => String c l :: ls
         | [] => [String c EmptyString]
         end
end.

(** A string without a newline. *)
Fixpoint one_line (s : string) : bool :=
match s with
| EmptyString => true
| String c r => negb (Ascii.eqb c "010") && one_line r
end.
(** A string without the character [c]. *)
Fixpoint lacks (c : ascii) (s : string) : bool :=
match s with
| EmptyString => true
| String a r => negb (Ascii.eqb a c) && lacks c r
end.
End Terms.

(** ** Further sample inputs *)

Module Samples.
Import Mosaic MosaicMain Examples.

(** A boundary given by a bound on the x coordinate: the geometry of the
    GeoJSON document is that number, and a footprint intersects the boundary
    when it reaches west of the bound. *)
Definition bound_of (g : json) : outcome float :=
match g with
| JNum x => Returned x
| _ => Raised ValueError
end.

Definition widest (gs : list float) : outcome float :=
Returned (fold_left (fun m x => if PrimFloat.ltb m x then x else m) gs 0%float).

Definition west_feature : list (string * json) :=
[("type", JStr "Feature"); ("geometry", JNum 10)].

Definition west_collection : list (string * json) :=
[("type", JStr "FeatureCollection"); ("features", JArr [JObj west_feature])].

Definition office : world :=
{| listdir := fun _ => Raised OSError;
   path_exists := fun p =>
     existsb (String.eqb p) ["PSScene/PSScene_flood_aware.shp"; "aoi/sumbar1.geojson"];
   load_json := fun p =>
     if String.eqb p "aoi/sumbar1.geojson" then Returned (JObj west_collection)
     else Raised OSError;
   gdal_open := fun _ => Returned None |}.

Definition command : args :=
{| a_shapefile := "PSScene/PSScene_flood_aware.shp";
   a_geojson := "aoi/sumbar1.geojson";
   a_data_dir := "/data";
   a_output_script := "mosaic_sumbar1.sh";
   a_otb_path := None;
   a_eps_factor := 1.5;
   a_min_samples := 2 |}.

Definition any_dir (p : string) : bool := true.
Definition shapefile_scenes (p : string) : outcome (list scene) := Returned four_scenes.


Definition office_run (dbscan : float -> Z -> list point -> outcome (list Z)) : ending :=
main bound_of widest reaches_west mean dbscan no_digits any_dir shapefile_scenes
  office command.

(** The script of the sample run. *)
Definition office_script : script :=
match office_run west_cluster with
| Success s => s
| _ => {| script_path := ""; script_lines := []; script_text := "";
          script_mode := 0; sorted_clusters := [] |}
end.

(** Two clusters of one scene each and one of two. *)
Definition three_clusters : clusters :=
[ ("single_1", [scene_at "s4" 20 50 50]);
  ("cluster_1", [scene_at "s2" 85 1 0; scene_at "s3" 40 0 1]);
  ("single_2", [scene_at "s1" 10 0 0]) ].

Definition three_clusters_script : script :=
match generate_mosaic_script no_digits three_clusters "/data" "mosaic.sh" "aoi" None with
| Returned s => s
| Raised _ => {| script_path := ""; script_lines := []; script_text := "";
                 script_mode := 0; sorted_clusters := [] |}
end.

(** A directory with one scene whose metadata gives a cloud cover that is not
    a number, and no imagery. *)
Definition odd_site : world :=
{| listdir := fun _ => Returned ["x_metadata.json"];
   path_exists := fun _ => false;
   load_json := fun p =>
     if String.eqb p "in/x_metadata.json"
     then Returned (JObj [("properties", JObj [("cloud_cover", JNum PrimFloat.nan)])])
     else Raised OSError;
   gdal_open := fun _ => Returned None |}.

Definition odd_status : FloodAware.status :=
{| FloodAware.st_selected := false;
   FloodAware.st_base := "x";
   FloodAware.st_cloud_cover := PrimFloat.nan;
   FloodAware.st_water := FloodAware.zero_result;
   FloodAware.st_reason := "high_cloud_no_water" |}.
End Samples.

(** * Properties *)

Open Scope list_scope.

(** ** Comparison of floats *)

Section FloatOrder.
Import Spec.

Lemma SFcompare_antisym (x y : spec_float) :
  SFcompare y x = option_map CompOpp (SFcompare x y).
Proof.
  destruct x as [sx|sx| |sx mx ex], y as [sy|sy| |sy my ey]; simpl;
    try reflexivity;
    try (destruct sx; reflexivity);
    try (destruct sy; reflexivity);
    try (destruct sx, sy; reflexivity).
  destruct sx, sy; simpl; try reflexivity;
    rewrite (Z.compare_antisym ex ey);
    destruct (ex ?= ey)%Z; simpl; try reflexivity;
    fold (Pos.compare my mx); fold (Pos.compare mx my);
    rewrite (Pos.compare_antisym mx my);
    now rewrite ?CompOpp_involutive.
Qed.


Ltac by_compare x y :=
  rewrite ?FloatAxioms.ltb_spec, ?FloatAxioms.leb_spec;
  unfold SFltb, SFleb;
  rewrite ?(SFcompare_antisym (Prim2SF x) (Prim2SF y)).

(** [y < x] rules out [x <= y], for every pair of floats. *)
Lemma ltb_true_leb_false (x y : float) :
  PrimFloat.ltb y x = true -> PrimFloat.leb x y = false.
Proof.
  by_compare x y.
  destruct (SFcompare (Prim2SF x) (Prim2SF y)) as [[]|]; simpl; congruence.
Qed.



End FloatOrder.

(** ** The stable sort *)

Section SortedRev.
Variable A : Type.


End SortedRev.

Section SortFacts.
Variables (A K : Type) (lt : K -> K -> bool) (key : A -> K).

Lemma insert_perm (x : A) (l : list A) : Permutation (insert lt key x l) (x :: l).
Proof.
  induction l as [|y r IH]; simpl; [reflexivity|].
  destruct (lt (key x) (key y)); [reflexivity|].
  rewrite IH. apply perm_swap.
Qed.

Lemma sort_ascending_from_perm (l acc : list A) :
  Permutation (fold_left (fun acc x => insert lt key x acc) l acc) (l ++ acc).
Proof.
  revert acc. induction l as [|x r IH]; intros acc; simpl; [reflexivity|].
  rewrite IH, insert_perm. symmetry. apply Permutation_middle.
Qed.

Lemma sort_ascending_perm (l : list A) : Permutation (sort_ascending lt key l) l.
Proof.
  unfold sort_ascending. rewrite sort_ascending_from_perm. now rewrite app_nil_r.
Qed.

(** Sorting rearranges the list and nothing else. *)
Lemma sorted_perm (reverse : bool) (l : list A) :
  Permutation (sorted lt key reverse l) l.
Proof.
  unfold sorted. destruct reverse.
  - rewrite <- Permutation_rev, sort_ascending_perm. symmetry. apply Permutation_rev.
  - apply sort_ascending_perm.
Qed.

(** Keys on which [lt] behaves as the strict part of an order [le]. *)
Variable ok : K -> Prop.
Variable le : K -> K -> Prop.
Hypothesis lt_le : forall a b, lt a b = true -> le a b.
Hypothesis not_lt_le : forall a b, ok a -> ok b -> lt a b = false -> le b a.

Let ascending := Sorted (fun x y => le (key x) (key y)).

Lemma insert_ascending (x : A) (l : list A) :
  ok (key x) -> Forall (fun y => ok (key y)) l ->
  ascending l -> ascending (insert lt key x l).
Proof.
  intros Hx. induction l as [|y r IH]; intros Hok Hs; simpl.
  - repeat constructor.
  - inversion Hok as [|? ? Hy Hr]; subst.
    inversion Hs as [|? ? Hsr Hhd]; subst.
    destruct (lt (key x) (key y)) eqn:E.
    + constructor; [assumption|]. constructor. now apply lt_le.
    + constructor; [now apply IH|].
      destruct r as [|z r']; simpl.
      * constructor. now apply not_lt_le.
      * destruct (lt (key x) (key z)).
        -- constructor. now apply not_lt_le.
        -- inversion Hhd; subst. now constructor.
Qed.

Lemma insert_ok (x : A) (l : list A) :
  ok (key x) -> Forall (fun y => ok (key y)) l ->
  Forall (fun y => ok (key y)) (insert lt key x l).
Proof.
  intros Hx Hl. eapply Permutation_Forall; [symmetry; apply insert_perm|].
  now constructor.
Qed.

Lemma sort_ascending_from_sorted (l acc : list A) :
  Forall (fun y => ok (key y)) l -> Forall (fun y => ok (key y)) acc ->
  ascending acc -> ascending (fold_left (fun acc x => insert lt key x acc) l acc).
Proof.
  revert acc. induction l as [|x r IH]; intros acc Hl Hacc Hs; simpl; [assumption|].
  inversion Hl; subst.
  apply IH; [assumption|now apply insert_ok|now apply insert_ascending].
Qed.

Lemma sort_ascending_sorted (l : list A) :
  Forall (fun y => ok (key y)) l -> ascending (sort_ascending lt key l).
Proof.
  intros Hl. apply sort_ascending_from_sorted; [assumption|constructor|constructor].
Qed.


End SortFacts.

(** ** Insertion-ordered dicts *)

Section DictFacts.
Variable V : Type.

Lemma dict_append_nil (k : string) (x : V) : dict_append k x [] = [(k, [x])].
Proof. unfold dict_append. simpl. now rewrite String.eqb_refl. Qed.

Lemma dict_append_cons (k k' : string) (x : V) (v : list V) (d : dict (list V)) :
  dict_append k x ((k', v) :: d) =
  if String.eqb k k' then (k', v ++ [x]) :: d else (k', v) :: dict_append k x d.
Proof.
  unfold dict_append, dict_mem. simpl.
  destruct (String.eqb k k') eqn:E; simpl.
  - now rewrite E.
  - destruct (dict_get k d); simpl; now rewrite E.
Qed.

Lemma dict_append_perm (k : string) (x : V) (d : dict (list V)) :
  Permutation (List.concat (map snd (dict_append k x d))) (x :: List.concat (map snd d)).
Proof.
  induction d as [|[k' v] r IH].
  - rewrite dict_append_nil. reflexivity.
  - rewrite dict_append_cons. destruct (String.eqb k k'); simpl.
    + rewrite <- app_assoc. simpl. symmetry. apply Permutation_middle.
    + rewrite IH. symmetry. apply Permutation_middle.
Qed.

Lemma dict_append_nonempty (k : string) (x : V) (d : dict (list V)) :
  Forall (fun kv => snd kv <> []) d ->
  Forall (fun kv => snd kv <> []) (dict_append k x d).
Proof.
  induction d as [|[k' v] r IH]; intros H.
  - rewrite dict_append_nil. repeat constructor. discriminate.
  - rewrite dict_append_cons. inversion H; subst.
    destruct (String.eqb k k').
    + constructor; [|assumption]. simpl. now destruct v.
    + constructor; [assumption|now apply IH].
Qed.

Lemma dict_append_keys (k : string) (x : V) (d : dict (list V)) :
  map fst (dict_append k x d) =
  if existsb (String.eqb k) (map fst d) then map fst d else map fst d ++ [k].
Proof.
  induction d as [|[k' v] r IH].
  - now rewrite dict_append_nil.
  - rewrite dict_append_cons. simpl. destruct (String.eqb k k'); simpl; [reflexivity|].
    rewrite IH. now destruct (existsb (String.eqb k) (map fst r)).
Qed.

Lemma dict_append_NoDup (k : string) (x : V) (d : dict (list V)) :
  NoDup (map fst d) -> NoDup (map fst (dict_append k x d)).
Proof.
  intros H. rewrite dict_append_keys.
  destruct (existsb (String.eqb k) (map fst d)) eqn:E; [assumption|].
  apply NoDup_app_remove_l with (l := []). simpl.
  apply Permutation_NoDup with (l := k :: map fst d).
  - apply Permutation_cons_append.
  - constructor; [|assumption]. intros Hin.
    assert (existsb (String.eqb k) (map fst d) = true); [|congruence].
    apply existsb_exists. exists k. split; [assumption|apply String.eqb_refl].
Qed.
End DictFacts.

(** ** mosaic_by_geojson.py: the boundary filter *)

Section FilterFacts.
Import Mosaic.
Variable Geometry : Type.

Lemma filter_fold (intersects : list point -> Geometry -> bool) (boundary : Geometry)
  (scenes acc : list scene) :
  fold_left (filter_step intersects boundary) scenes acc =
  acc ++ filter (fun sc => intersects (polygon sc) boundary) scenes.
Proof.
  revert acc. induction scenes as [|sc r IH]; intros acc; simpl.
  - now rewrite app_nil_r.
  - rewrite IH. unfold filter_step, append.
    destruct (intersects (polygon sc) boundary); [|reflexivity].
    now rewrite <- app_assoc.
Qed.

Lemma filter_scenes_by_boundary_equals_filter
  (intersects : list point -> Geometry -> bool)
  (scenes : list scene) (boundary : Geometry) :
  filter_scenes_by_boundary intersects scenes boundary =
  filter (fun sc => intersects (polygon sc) boundary) scenes.
Proof. unfold filter_scenes_by_boundary. now rewrite filter_fold. Qed.

(** C2. [filter_scenes_by_boundary] returns exactly the scenes whose footprint
    polygon intersects the boundary: the records themselves, in the order of
    the input. *)
Theorem filter_scenes_by_boundary_exact
  (intersects : list point -> Geometry -> bool)
  (scenes : list scene) (boundary : Geometry) :
  filter_scenes_by_boundary intersects scenes boundary =
  filter (fun sc => intersects (polygon sc) boundary) scenes.
Proof. apply filter_scenes_by_boundary_equals_filter. Qed.
End FilterFacts.

(** ** mosaic_by_geojson.py: clustering *)

Section ClusterFacts.
Import Mosaic Spec.
Variable np_mean : list float -> float.
Variable DBSCAN_fit_predict : float -> Z -> list point -> outcome (list Z).

Lemma organize_step_spec (st : clusters * nat) (sc : scene) (label : Z) :
  exists k n, organize_step st (sc, label) = (dict_append k sc (fst st), n).
Proof.
  destruct st as [cl n]. unfold organize_step.
  destruct (label =? -1)%Z; eexists; eexists; reflexivity.
Qed.

Lemma organize_fold (sl : list (scene * Z)) (st : clusters * nat) :
  well_formed (fst st) ->
  let cl := fst (fold_left organize_step sl st) in
  well_formed cl /\ Permutation (all_scenes cl) (all_scenes (fst st) ++ map fst sl).
Proof.
  revert st. induction sl as [|[sc label] r IH]; intros st [Hk Hn]; simpl.
  - split; [now split|]. now rewrite app_nil_r.
  - destruct (organize_step_spec st sc label) as (k & n & E). rewrite E.
    destruct (IH (dict_append k sc (fst st), n)) as [Hwf Hp].
    + split; [now apply dict_append_NoDup|now apply dict_append_nonempty].
    + split; [exact Hwf|]. rewrite Hp. simpl. unfold all_scenes.
      rewrite dict_append_perm. simpl. apply Permutation_middle.
Qed.

Lemma map_fst_combine (A B : Type) (l : list A) (l' : list B) :
  List.length l' = List.length l -> map fst (combine l l') = l.
Proof.
  revert l'. induction l as [|a l IH]; intros [|b l'] H; simpl in *;
    try discriminate; [reflexivity|]. f_equal. apply IH. now injection H.
Qed.

Lemma organize_partition (scenes : list scene) (labels : list Z) :
  List.length labels = List.length scenes ->
  well_formed (organize scenes labels) /\
  Permutation (all_scenes (organize scenes labels)) scenes.
Proof.
  intros Hlen. unfold organize.
  destruct (organize_fold (combine scenes labels) ([], 0)) as [Hwf Hp].
  - split; constructor.
  - split; [exact Hwf|]. rewrite Hp. simpl. now rewrite map_fst_combine.
Qed.

Lemma sort_cluster_perm (l : list scene) : Permutation (sort_cluster l) l.
Proof. apply sorted_perm. Qed.

Lemma sort_each_partition (cl : clusters) :
  well_formed cl ->
  well_formed (sort_each cl) /\ Permutation (all_scenes (sort_each cl)) (all_scenes cl).
Proof.
  intros [Hk Hn]. unfold well_formed, sort_each, all_scenes.
  rewrite !map_map. simpl. repeat split.
  - exact Hk.
  - rewrite Forall_map. eapply Forall_impl; [|exact Hn]. simpl.
    intros [k l] Hl E. apply Hl. simpl in *.
    apply Permutation_nil. rewrite <- E. apply sort_cluster_perm.
  - clear Hk Hn. induction cl as [|[k l] r IH]; simpl; [reflexivity|].
    apply Permutation_app; [apply sort_cluster_perm|exact IH].
Qed.

Lemma cluster_scenes_returned (scenes : list scene) (eps_factor : float)
  (min_samples : Z) (labels : list Z) :
  DBSCAN_fit_predict (density_radius np_mean eps_factor scenes) min_samples
    (map centroid scenes) = Returned labels ->
  scenes <> [] ->
  cluster_scenes np_mean DBSCAN_fit_predict scenes eps_factor min_samples =
  Returned (sort_each (organize scenes labels)).
Proof.
  intros Hd Hne. destruct scenes as [|sc r]; [congruence|].
  unfold cluster_scenes.
  change (avg_scene_size np_mean (sc :: r)) with (average_scene_size np_mean (sc :: r)).
  unfold density_radius in Hd. rewrite Hd. reflexivity.
Qed.

(** C3. When the clustering routine answers with one label per scene, the
    cluster map returned by [cluster_scenes] is a partition of the input:
    its ids are distinct, no cluster is empty, and the clusters put end to
    end hold the input scenes, each as often as the input does, and nothing
    else. *)
Theorem cluster_scenes_partition (scenes : list scene) (eps_factor : float)
  (min_samples : Z) (labels : list Z) :
  scenes <> [] ->
  DBSCAN_fit_predict (density_radius np_mean eps_factor scenes) min_samples
    (map centroid scenes) = Returned labels ->
  List.length labels = List.length scenes ->
  exists cl,
    cluster_scenes np_mean DBSCAN_fit_predict scenes eps_factor min_samples = Returned cl
    /\ NoDup (map fst cl)
    /\ Forall (fun kv => snd kv <> []) cl
    /\ Permutation (List.concat (map snd cl)) scenes.
Proof.
  intros Hne Hd Hlen. exists (sort_each (organize scenes labels)).
  split; [now apply cluster_scenes_returned|].
  destruct (organize_partition scenes labels Hlen) as [Hwf Hp].
  destruct (sort_each_partition Hwf) as [[Hk Hn] Hp'].
  repeat split; try assumption.
  fold (all_scenes (sort_each (organize scenes labels))). now rewrite Hp'.
Qed.

(** C10. For the empty scene list [cluster_scenes] returns the empty cluster
    map, whatever [eps_factor] and [min_samples] are, and without calling the
    clustering routine: the result is the same for every such routine, also
    one that always raises. *)
Theorem cluster_scenes_empty (eps_factor : float) (min_samples : Z) :
  cluster_scenes np_mean DBSCAN_fit_predict [] eps_factor min_samples = Returned [].
Proof. reflexivity. Qed.

(** C4. On a non-empty scene list the clustering step is one call to the
    density-clustering routine, on the scene centroids, with the radius
    [eps_factor] times the average scene size (the mean of the mean width and
    the mean height of the bounding boxes): an exception of that call is the
    exception of [cluster_scenes], and its labels decide the cluster map. *)
Theorem cluster_scenes_density_call (scenes : list scene) (eps_factor : float)
  (min_samples : Z) :
  scenes <> [] ->
  let eps := density_radius np_mean eps_factor scenes in
  let answer := DBSCAN_fit_predict eps min_samples (map centroid scenes) in
  eps = (eps_factor *
         ((np_mean (map (fun s => fst (bbox_size s)) scenes) +
           np_mean (map (fun s => snd (bbox_size s)) scenes)) / 2))%float
  /\ (forall e, answer = Raised e ->
        cluster_scenes np_mean DBSCAN_fit_predict scenes eps_factor min_samples = Raised e)
  /\ (forall labels, answer = Returned labels ->
        cluster_scenes np_mean DBSCAN_fit_predict scenes eps_factor min_samples =
        Returned (sort_each (organize scenes labels))).
Proof.
  intros Hne eps answer. split; [reflexivity|]. split.
  - intros e He. destruct scenes as [|sc r]; [congruence|].
    unfold cluster_scenes.
    change (avg_scene_size np_mean (sc :: r)) with (average_scene_size np_mean (sc :: r)).
    fold (density_radius np_mean eps_factor (sc :: r)).
    subst answer eps. now rewrite He.
  - intros labels Hl. now apply cluster_scenes_returned.
Qed.
End ClusterFacts.

(** ** Strings *)

Section StringFacts.

Lemma append_assoc (a b c : string) : ((a ++ b) ++ c = a ++ (b ++ c))%string.
Proof. induction a as [|x a IH]; simpl; [reflexivity|now rewrite IH]. Qed.

Lemma strip_prefix_app (p s : string) : strip_prefix p (p ++ s)%string = Some s.
Proof.
  induction p as [|a p IH]; simpl; [reflexivity|].
  now rewrite Ascii.eqb_refl.
Qed.

Lemma list_ascii_of_string_app (a b : string) :
  list_ascii_of_string (a ++ b)%string =
  list_ascii_of_string a ++ list_ascii_of_string b.
Proof. induction a as [|x a IH]; simpl; [reflexivity|now rewrite IH]. Qed.

Lemma string_of_list_ascii_app (l1 l2 : list ascii) :
  string_of_list_ascii (l1 ++ l2) =
  (string_of_list_ascii l1 ++ string_of_list_ascii l2)%string.
Proof. induction l1 as [|x l1 IH]; simpl; [reflexivity|now rewrite IH]. Qed.

Lemma string_rev_app (a b : string) :
  string_rev (a ++ b)%string = (string_rev b ++ string_rev a)%string.
Proof.
  unfold string_rev.
  now rewrite list_ascii_of_string_app, rev_app_distr, string_of_list_ascii_app.
Qed.

Lemma string_rev_involutive (s : string) : string_rev (string_rev s) = s.
Proof.
  unfold string_rev.
  now rewrite list_ascii_of_string_of_list_ascii, rev_involutive,
    string_of_list_ascii_of_string.
Qed.

Lemma strip_suffix_app (p s : string) : strip_suffix p (s ++ p)%string = Some s.
Proof.
  unfold strip_suffix.
  now rewrite string_rev_app, strip_prefix_app, string_rev_involutive.
Qed.

(** A string that ends in a quote does not end in a backslash. *)
Lemma strip_suffix_quote (s : string) :
  strip_suffix (dq ++ " \")%string (s ++ dq)%string = None.
Proof. unfold strip_suffix. rewrite (string_rev_app s dq). reflexivity. Qed.
End StringFacts.

(** ** mosaic_by_geojson.py: the script *)

Section ScriptFacts.
Import Mosaic Spec ScriptReader.
Variable format_0f : float -> string.

Lemma read_call_line (id : string) :
  read_call ("mosaic_cluster " ++ id ++ " \")%string = Some id.
Proof. unfold read_call. rewrite strip_prefix_app. apply strip_suffix_app. Qed.

Lemma read_argument_more (name : string) :
  read_argument ("    " ++ quoted name ++ " \")%string = Some (name, true).
Proof.
  unfold read_argument, quoted.
  replace ("    " ++ (dq ++ name ++ dq) ++ " \")%string
    with (("    " ++ dq) ++ (name ++ (dq ++ " \")))%string
    by now rewrite !append_assoc.
  rewrite strip_prefix_app. now rewrite strip_suffix_app.
Qed.

Lemma read_argument_last (name : string) :
  read_argument ("    " ++ quoted name)%string = Some (name, false).
Proof.
  unfold read_argument, quoted.
  replace ("    " ++ (dq ++ name ++ dq))%string
    with (("    " ++ dq) ++ (name ++ dq))%string
    by now rewrite !append_assoc.
  rewrite strip_prefix_app, strip_suffix_quote. now rewrite strip_suffix_app.
Qed.

(** The loop over [enumerate(cluster_scene_list)] appends the argument lines. *)
Lemma scene_lines_fold (l : list scene) (k n : nat) (acc : list string) :
  n = k + List.length l ->
  fold_left
    (fun lines isc => append lines (scene_line n (fst isc) (snd isc)))
    (combine (seq k (List.length l)) l) acc =
  acc ++ argument_lines l.
Proof.
  revert k acc. induction l as [|sc r IH]; intros k acc Hn.
  - simpl. now rewrite app_nil_r.
  - cbn [List.length seq combine fold_left].
    rewrite (IH (S k)) by (simpl in Hn; lia).
    unfold append. rewrite <- app_assoc. f_equal.
    cbn [argument_lines fst snd app]. unfold scene_line.
    destruct r as [|sc' r'].
    + simpl in Hn. replace (Z.of_nat k <? Z.of_nat n - 1)%Z with false; [reflexivity|].
      symmetry. apply Z.ltb_ge. lia.
    + simpl in Hn. replace (Z.of_nat k <? Z.of_nat n - 1)%Z with true; [reflexivity|].
      symmetry. apply Z.ltb_lt. lia.
Qed.

Lemma append_cluster_lines (lines : list string) (id : string) (l : list scene) :
  l <> [] ->
  exists c,
    append_cluster format_0f lines (id, l) =
    Returned (lines ++ cluster_lines ("# " ++ c) id l).
Proof.
  intros Hl. destruct l as [|sc r]; [congruence|].
  unfold append_cluster. cbn [map max_float min_float bind].
  eexists. unfold enumerate. rewrite scene_lines_fold by reflexivity.
  unfold append, cluster_lines. rewrite <- !app_assoc.
  cbn [app]. rewrite ?append_assoc. reflexivity.
Qed.

(** Reading the argument lines of a call closes the call with the file names. *)
Lemma read_argument_lines (l : list scene) (rest : list string)
  (calls : list (string * list string)) (id : string) (args : list string) :
  l <> [] ->
  fold_left read_line (argument_lines l ++ rest) (calls, Some (id, args)) =
  fold_left read_line rest (calls ++ [(id, args ++ map tif_file l)], None).
Proof.
  revert args. induction l as [|sc r IH]; intros args Hl; [congruence|].
  destruct r as [|sc' r'].
  - cbn [argument_lines app fold_left read_line].
    rewrite read_argument_last. reflexivity.
  - change (argument_lines (sc :: sc' :: r'))
      with (("    " ++ quoted (tif_file sc) ++ " \")%string :: argument_lines (sc' :: r')).
    cbn [app fold_left read_line]. rewrite read_argument_more.
    rewrite IH by discriminate. unfold append. now rewrite <- app_assoc.
Qed.

Lemma read_cluster_lines (c id : string) (l : list scene)
  (calls : list (string * list string)) :
  l <> [] ->
  fold_left read_line (cluster_lines ("# " ++ c) id l) (calls, None) =
  (calls ++ [(id, map tif_file l)], None).
Proof.
  intros Hl. unfold cluster_lines. cbn [fold_left].
  change (read_line (calls, None) ("# " ++ c)%string) with (calls, @None (string * list string)).
  cbn [read_line]. unfold read_outside. rewrite read_call_line.
  rewrite read_argument_lines by assumption. reflexivity.
Qed.

(** The loop over the sorted clusters appends lines that read back as the
    clusters, one call each. *)
Lemma append_clusters_lines (items : list (string * list scene)) (lines : list string) :
  Forall (fun kv => snd kv <> []) items ->
  exists body,
    append_clusters format_0f items lines = Returned (lines ++ body)
    /\ forall calls,
         fold_left read_line body (calls, None) = (calls ++ listing items, None).
Proof.
  revert lines. induction items as [|[id l] r IH]; intros lines H.
  - exists []. split; [simpl; now rewrite app_nil_r|].
    intros calls. simpl. now rewrite app_nil_r.
  - inversion H as [|? ? Hl Hr]; subst. simpl in Hl.
    destruct (append_cluster_lines lines id Hl) as [c Hc].
    destruct (IH (lines ++ cluster_lines ("# " ++ c) id l) Hr) as (body & Hb & Hread).
    exists (cluster_lines ("# " ++ c) id l ++ body). split.
    + cbn [append_clusters]. rewrite Hc. cbn [bind]. rewrite Hb.
      now rewrite <- app_assoc.
    + intros calls. rewrite fold_left_app, read_cluster_lines by assumption.
      rewrite Hread. cbn [listing map fst snd]. now rewrite <- app_assoc.
Qed.

Lemma read_header (aoi_name otb_path data_dir output_dir : string) :
  fold_left read_line (header_lines aoi_name otb_path data_dir output_dir) ([], None)
  = ([], None).
Proof. reflexivity. Qed.

Lemma read_footer (calls : list (string * list string)) :
  fold_left read_line footer_lines (calls, None) = (calls, None).
Proof. reflexivity. Qed.

Lemma sort_clusters_perm (cl : clusters) : Permutation (sort_clusters cl) cl.
Proof. apply sorted_perm. Qed.


(** What [generate_mosaic_script] writes for a cluster map without an empty
    cluster. *)
Lemma generate_mosaic_script_written (cl : clusters)
  (data_dir output_script aoi_name : string) (otb_path : option string) :
  Forall (fun kv => snd kv <> []) cl ->
  exists r,
    generate_mosaic_script format_0f cl data_dir output_script aoi_name otb_path
      = Returned r
    /\ script_path r = output_script
    /\ script_text r = join nl (script_lines r)
    /\ nth_error (script_lines r) 7 =
         Some ("OTB_MOSAIC=" ++
               quoted (match otb_path with Some p => p | None => default_otb_path end))%string
    /\ read_invocations (script_lines r) = listing (sorted_clusters r)
    /\ sorted_clusters r = sort_clusters cl.
Proof.
  intros Hne.
  assert (Hs : Forall (fun kv => snd kv <> []) (sort_clusters cl)).
  { eapply Permutation_Forall; [symmetry; apply sort_clusters_perm|assumption]. }
  unfold generate_mosaic_script.
  set (otb := match otb_path with Some p => p | None => default_otb_path end).
  set (out := path_join data_dir ("mosaic_" ++ aoi_name)).
  destruct (append_clusters_lines (header_lines aoi_name otb data_dir out) Hs)
    as (body & Hb & Hread).
  replace (match otb_path with None => default_otb_path | Some p => p end) with otb
    by (subst otb; now destruct otb_path).
  rewrite Hb. cbn [bind]. eexists. split; [reflexivity|].
  cbn [script_path script_text script_lines sorted_clusters].
  repeat split.
  unfold read_invocations, extend.
  rewrite !fold_left_app, read_header, Hread, read_footer. reflexivity.
Qed.
End ScriptFacts.

(** ** select_scenes_flood_aware.py *)

Section FloodAwareFacts.
Import FloodAware Spec.

(** *** Water detection *)

Lemma detect_water_extent_cases (w : world) (tif udm2 : string) (nir : Z) :
  detect_water_extent w tif udm2 nir = Returned zero_result
  \/ (path_exists w tif = true /\ path_exists w udm2 = true /\
      exists ds u r,
        gdal_open w tif = Returned (Some ds) /\
        gdal_open w udm2 = Returned (Some u) /\
        detect_water_extent w tif udm2 nir = Returned r).
Proof.
  unfold detect_water_extent.
  destruct (path_exists w tif); [|now left].
  destruct (path_exists w udm2); [|now left]. cbn [negb].
  unfold detect_body.
  destruct (gdal_open w tif) as [[ds|]|e]; cbn [bind try_except]; try now left.
  destruct (read_band ds 4) as [nir_data|e]; cbn [bind try_except]; try now left.
  destruct (gdal_open w udm2) as [[u|]|e]; cbn [bind try_except]; try now left.
  right. repeat split. exists ds, u.
  match goal with |- exists r, _ /\ _ /\ ?m = _ =>
    destruct m as [r|e] eqn:E end.
  - exists r. now repeat split.
  - exfalso. revert E. unfold try_except.
    match goal with |- context [match ?b with Returned _ => _ | Raised _ => _ end] =>
      destruct b end; discriminate.
Qed.

Lemma detect_water_extent_returns (w : world) (tif udm2 : string) (nir : Z) :
  exists r, detect_water_extent w tif udm2 nir = Returned r.
Proof.
  destruct (detect_water_extent_cases w tif udm2 nir) as [H|(_ & _ & ds & u & r & _ & _ & H)];
    eauto.
Qed.

Lemma detect_water_extent_default (w : world) (tif udm2 : string) (nir : Z) :
  path_exists w tif = false \/ path_exists w udm2 = false \/
  cannot_open w tif \/ cannot_open w udm2 ->
  detect_water_extent w tif udm2 nir = Returned zero_result.
Proof.
  intros H.
  destruct (detect_water_extent_cases w tif udm2 nir)
    as [E|(Ht & Hu & ds & u & r & Hds & Hud & _)]; [exact E|].
  unfold cannot_open in H.
  destruct H as [H|[H|[[H|[e H]]|[H|[e H]]]]]; congruence.
Qed.

(** *** The decision *)

Lemma determine_selection_decision (cc cm wp mw : float) (st : stats) :
  fst (determine_selection cc cm wp mw st) = decision cc cm wp mw.
Proof.
  unfold determine_selection, decision.
  destruct (PrimFloat.leb cc cm); [reflexivity|].
  destruct (PrimFloat.leb mw wp); reflexivity.
Qed.

Variable w : world.
Variables (input_dir : string) (cloud_max : float) (nir_threshold : Z)
          (min_water_pct : float).

Let status_ok := status_ok w input_dir cloud_max nir_threshold min_water_pct.

Let body := process_scene w input_dir cloud_max nir_threshold min_water_pct.
Let loop := for_each w input_dir cloud_max nir_threshold min_water_pct.

Lemma process_scene_log (f : string) (s : state) :
  exists extra,
    s_log (fst (body f s)) = s_log s ++ extra
    /\ Forall status_ok extra
    /\ (snd (body f s) = Returned tt ->
        map st_base extra = [replace f "_metadata.json" ""]).
Proof.
  unfold body, process_scene.
  destruct (read_metadata w input_dir f) as [[[data props] cc]|e].
  2:{ exists []. simpl. rewrite app_nil_r. repeat split; [constructor|discriminate]. }
  set (base := replace f "_metadata.json" "").
  destruct (detect_water_extent w (path_join input_dir (base ++ tif_suffix))
              (path_join input_dir (base ++ udm2_suffix)) nir_threshold)
    as [water|e] eqn:Ed.
  2:{ exists []. simpl. rewrite app_nil_r. repeat split; [constructor|discriminate]. }
  pose proof (determine_selection_decision cc cloud_max (water_pct water)
                min_water_pct (s_stats (with_stats count_scene s))) as Hd.
  destruct (determine_selection cc cloud_max (water_pct water) min_water_pct
              (s_stats (with_stats count_scene s))) as [[selected reason] st].
  simpl in Hd.
  exists [{| st_selected := selected; st_base := base; st_cloud_cover := cc;
             st_water := water; st_reason := reason |}].
  assert (Hok : Forall status_ok
            [{| st_selected := selected; st_base := base; st_cloud_cover := cc;
                st_water := water; st_reason := reason |}]).
  { repeat constructor; simpl; [exact Ed|exact Hd]. }
  destruct selected.
  - destruct (path_exists w (path_join input_dir (base ++ ".json"))).
    + destruct (read_shape w (path_join input_dir (base ++ ".json")) base reason
                  data props cc water) as [[shape|]|e];
        simpl; repeat split; auto; discriminate.
    + simpl. repeat split; auto.
  - simpl. repeat split; auto.
Qed.

Lemma for_each_log (files : list string) (s : state) :
  exists extra,
    s_log (fst (loop files s)) = s_log s ++ extra
    /\ Forall status_ok extra
    /\ (snd (loop files s) = Returned tt ->
        map st_base extra = map (fun f => replace f "_metadata.json" "") files).
Proof.
  revert s. induction files as [|f r IH]; intros s.
  - exists []. simpl. rewrite app_nil_r. repeat split; constructor.
  - destruct (process_scene_log f s) as (e1 & Hl1 & Hok1 & Hb1).
    unfold loop. cbn [for_each]. fold body.
    destruct (body f s) as [s' [[]|e]] eqn:Eb; simpl in Hl1, Hb1.
    + destruct (IH s') as (e2 & Hl2 & Hok2 & Hb2). fold loop.
      exists (e1 ++ e2). rewrite Hl2, Hl1, app_assoc. split; [reflexivity|].
      split; [now apply Forall_app|].
      intros Hr. rewrite map_app, Hb1, Hb2 by auto. reflexivity.
    + exists e1. simpl. repeat split; auto. discriminate.
Qed.

Let run := select_scenes_flood_aware w input_dir cloud_max nir_threshold min_water_pct.

Lemma select_scenes_flood_aware_log : Forall status_ok (s_log (fst run)).
Proof.
  unfold run, select_scenes_flood_aware.
  destruct (listdir w input_dir) as [names|e]; [|constructor].
  destruct (for_each_log (metadata_files names) state0) as (extra & Hl & Hok & _).
  unfold loop in Hl.
  destruct (for_each w input_dir cloud_max nir_threshold min_water_pct
              (metadata_files names) state0) as [s [[]|e]];
    simpl in *; now rewrite Hl.
Qed.

(** When the run returns, one status was printed for each metadata file, in
    sorted file order. *)
Lemma select_scenes_flood_aware_scenes (names : list string) (st : stats) :
  listdir w input_dir = Returned names ->
  snd run = Returned st ->
  map st_base (s_log (fst run)) =
  map (fun f => replace f "_metadata.json" "") (metadata_files names).
Proof.
  unfold run, select_scenes_flood_aware. intros Hn. rewrite Hn.
  destruct (for_each_log (metadata_files names) state0) as (extra & Hl & _ & Hb).
  unfold loop in Hl, Hb.
  destruct (for_each w input_dir cloud_max nir_threshold min_water_pct
              (metadata_files names) state0) as [s [[]|e]];
    simpl in *; [|discriminate].
  intros _. rewrite Hl. now apply Hb.
Qed.

(** The decision on any pair of floats, NaN included: accepted when the cloud
    cover is at most the threshold, and otherwise on the water alone. *)
Lemma flood_aware_acceptance_any_float (r : status) :
In r (s_log (fst run)) ->
(st_selected r = true <->
 PrimFloat.leb (st_cloud_cover r) cloud_max = true
 \/ (PrimFloat.leb (st_cloud_cover r) cloud_max = false
     /\ PrimFloat.leb min_water_pct (water_pct (st_water r)) = true)).
Proof.
intros Hin. pose proof select_scenes_flood_aware_log as Hlog.
rewrite Forall_forall in Hlog. destruct (Hlog r Hin) as [_ Hd].
unfold decision in Hd.
destruct (PrimFloat.leb (st_cloud_cover r) cloud_max);
  [|destruct (PrimFloat.leb min_water_pct (water_pct (st_water r)))];
  injection Hd as Hs _; rewrite Hs; intuition congruence.
Qed.


(** C8. [detect_water_extent] always returns, never raises; it returns the
    zeroed result whenever the scene TIFF or the UDM2 file is missing or
    cannot be opened; so a scene with cloud cover above [cloud_max] whose
    TIFF or UDM2 file is missing is rejected when [min_water_pct] is
    positive. *)
Theorem detect_water_extent_safe :
  (forall tif udm2 nir, exists res, detect_water_extent w tif udm2 nir = Returned res)
  /\ (forall tif udm2 nir,
        path_exists w tif = false \/ path_exists w udm2 = false \/
        cannot_open w tif \/ cannot_open w udm2 ->
        detect_water_extent w tif udm2 nir = Returned zero_result)
  /\ (forall r,
        In r (s_log (fst run)) ->
        PrimFloat.ltb cloud_max (st_cloud_cover r) = true ->
        path_exists w (tif_path input_dir (st_base r)) = false \/
        path_exists w (udm2_path input_dir (st_base r)) = false ->
        PrimFloat.ltb 0 min_water_pct = true ->
        st_selected r = false /\ st_water r = zero_result).
Proof.
  split; [intros; apply detect_water_extent_returns|].
  split; [intros; now apply detect_water_extent_default|].
  intros r Hin Hcc Hmiss Hmw.
  pose proof select_scenes_flood_aware_log as Hlog.
  rewrite Forall_forall in Hlog. destruct (Hlog r Hin) as [Hw Hd].
  rewrite detect_water_extent_default in Hw by tauto.
  injection Hw as Hw. rewrite <- Hw in Hd |- *. unfold decision in Hd.
  rewrite (ltb_true_leb_false Hcc) in Hd. cbn [water_pct zero_result] in Hd.
  rewrite (ltb_true_leb_false Hmw) in Hd.
  injection Hd as Hs _. now split.
Qed.
End FloodAwareFacts.

(** *** The counters *)

Section FloodAwareCounts.
Import FloodAware Spec.
Variable w : world.
Variables (input_dir : string) (cloud_max : float) (nir_threshold : Z)
          (min_water_pct : float).

Lemma process_scene_counts (f : string) (s : state) :
counters_agree s ->
counters_agree (fst (process_scene w input_dir cloud_max nir_threshold min_water_pct f s)).
Proof.
unfold counters_agree, process_scene. intros (Ha & Hr & Hl & Hh).
destruct (read_metadata w input_dir f) as [[[data props] cc]|e]; [|simpl; tauto].
destruct (detect_water_extent w _ _ nir_threshold) as [water|e]; [|simpl; tauto].
unfold determine_selection.
destruct (PrimFloat.leb cc cloud_max);
  [|destruct (PrimFloat.leb min_water_pct (water_pct water))];
  try (destruct (path_exists w _); [destruct (read_shape w _ _ _ data props cc water)
                                      as [[shape|]|e]|]);
  simpl; unfold append; rewrite !filter_app, !length_app; simpl; lia.
Qed.

Lemma for_each_counts (files : list string) (s : state) :
counters_agree s ->
counters_agree (fst (for_each w input_dir cloud_max nir_threshold min_water_pct files s)).
Proof.
revert s. induction files as [|f r IH]; intros s Hs; [exact Hs|].
cbn [for_each]. pose proof (process_scene_counts f Hs) as H1.
destruct (process_scene w input_dir cloud_max nir_threshold min_water_pct f s)
  as [s' [[]|e]]; simpl in H1; [now apply IH|exact H1].
Qed.

(** The counters returned agree with the statuses printed: [accepted] counts
    the scenes selected and [rejected] the others, each split by reason. *)
Lemma select_scenes_flood_aware_counts :
counters_agree
  (fst (select_scenes_flood_aware w input_dir cloud_max nir_threshold min_water_pct)).
Proof.
unfold select_scenes_flood_aware.
assert (H0 : counters_agree state0) by (repeat split).
destruct (listdir w input_dir) as [names|e]; [|exact H0].
pose proof (for_each_counts (metadata_files names) H0) as H.
destruct (for_each w input_dir cloud_max nir_threshold min_water_pct
            (metadata_files names) state0) as [s [[]|e]]; exact H.
Qed.
End FloodAwareCounts.

(** ** Determinism of the filters *)

Section Determinism.
Import Mosaic FloodAware Spec.

(** C7. Two runs on equal inputs agree.  [filter_scenes_by_boundary] returns
    equal lists on equal scenes and boundary, whenever the intersection test
    answers alike in both runs; and two scenes with equal cloud cover and
    equal detected water get, under the same thresholds, the same decision
    and the same reason, whatever else differs between the runs. *)
Theorem filtering_deterministic :
  (forall (Geometry : Type) (intersects1 intersects2 : list point -> Geometry -> bool)
          (scenes1 scenes2 : list scene) (boundary1 boundary2 : Geometry),
      scenes1 = scenes2 ->
      boundary1 = boundary2 ->
      (forall sc, In sc scenes1 ->
                  intersects1 (polygon sc) boundary1 = intersects2 (polygon sc) boundary1) ->
      filter_scenes_by_boundary intersects1 scenes1 boundary1 =
      filter_scenes_by_boundary intersects2 scenes2 boundary2)
  /\ (forall (w1 w2 : world) (dir1 dir2 : string) (nir1 nir2 : Z)
             (cloud_max min_water_pct : float) (r1 r2 : status),
      In r1 (s_log (fst (select_scenes_flood_aware w1 dir1 cloud_max nir1 min_water_pct))) ->
      In r2 (s_log (fst (select_scenes_flood_aware w2 dir2 cloud_max nir2 min_water_pct))) ->
      st_cloud_cover r1 = st_cloud_cover r2 ->
      water_pct (st_water r1) = water_pct (st_water r2) ->
      st_selected r1 = st_selected r2 /\ st_reason r1 = st_reason r2).
Proof.
  split.
  - intros G i1 i2 s1 s2 b1 b2 <- <- H.
    rewrite !filter_scenes_by_boundary_equals_filter.
    apply filter_ext_in. exact H.
  - intros w1 w2 d1 d2 n1 n2 cm mw r1 r2 H1 H2 Hc Hw.
    pose proof (select_scenes_flood_aware_log w1 d1 cm n1 mw) as L1.
    pose proof (select_scenes_flood_aware_log w2 d2 cm n2 mw) as L2.
    rewrite Forall_forall in L1, L2.
    destruct (L1 r1 H1) as [_ D1]. destruct (L2 r2 H2) as [_ D2].
    rewrite Hc, Hw, <- D2 in D1. now injection D1.
Qed.
End Determinism.

(** ** select_scenes_to_shp.py *)

Section ToShpFacts.
Import ToShp Spec.

Lemma ltb_asym (a b : string) : String.ltb a b = true -> String.ltb b a = false.
Proof.
  unfold String.ltb. rewrite (String.compare_antisym a b).
  destruct (String.compare b a); simpl; congruence.
Qed.

(** The directory listing is gone through in ascending order of names. *)
Lemma sorted_names_ascending (names : list string) :
  names_ascending (sorted String.ltb (fun f => f) false names).
Proof.
  unfold names_ascending, sorted.
  apply (@sort_ascending_sorted _ _ String.ltb (fun f : string => f)
           (fun _ => True) (fun a b => String.ltb b a = false)).
  - intros a b. apply ltb_asym.
  - intros a b _ _ H. exact H.
  - apply Forall_forall. intros; exact I.
Qed.

Variable w : world.
Variables (input_dir : string) (cloud_max : float).

(** The value compared with the threshold is the [cloud_cover] entry read by
    the loop, 1.0 when there is none. *)
Lemma cloud_cover_value_read (path : string) :
  cloud_cover_value w path =
  (t <- read_metadata w path ;; number (snd t)).
Proof.
  unfold cloud_cover_value, read_metadata.
  destruct (load_json w path) as [data|e]; [|reflexivity]. cbn [bind].
  destruct (get data "properties" data) as [props|e]; [|reflexivity]. cbn [bind].
  destruct props; try reflexivity. cbn [get].
  destruct (dict_get "cloud_cover" members); reflexivity.
Qed.

Lemma reads_append (t : list event) (e : event) :
  metadata_reads (append t e) =
  metadata_reads t ++ match e with ReadMetadata p => [p] | _ => [] end.
Proof.
  unfold metadata_reads, append. rewrite flat_map_app. simpl. now rewrite app_nil_r.
Qed.

Lemma checks_append (t : list event) (e : event) :
  stac_checks (append t e) =
  stac_checks t ++ match e with CheckStac p => [p] | _ => [] end.
Proof.
  unfold stac_checks, append. rewrite flat_map_app. simpl. now rewrite app_nil_r.
Qed.

Let body := process_file w input_dir cloud_max.
Let loop := for_each w input_dir cloud_max.

(** One turn of the loop that does not raise: a metadata file is opened
    once, its cloud cover is a number, and its STAC file is looked for if and
    only if the cloud cover is within the threshold. *)
Lemma process_file_trace (f : string) (s s' : state) :
  body f s = (s', Returned tt) ->
  if is_metadata f then
    (exists x, cloud_cover_value w (path_join input_dir f) = Returned x)
    /\ metadata_reads (trace s') = metadata_reads (trace s) ++ [path_join input_dir f]
    /\ stac_checks (trace s') =
       stac_checks (trace s) ++
       (if passes w input_dir cloud_max f then [stac_path input_dir f] else [])
  else s' = s.
Proof.
  unfold body, process_file, is_metadata, passes.
  destruct (endswith f "_metadata.json"); [|now intros [= <-]].
  rewrite cloud_cover_value_read.
  destruct (read_metadata w (path_join input_dir f)) as [[[data props] v]|e];
    [|discriminate].
  cbn [bind snd]. destruct (number v) as [x|e]; [|discriminate].
  fold (cloud_threshold cloud_max).
  destruct (PrimFloat.leb x (cloud_threshold cloud_max)).
  - fold (stac_path input_dir f).
    destruct (path_exists w (stac_path input_dir f));
      [destruct (read_shape w _ _ data props x) as [[[poly rec]|]|e]|];
      intros [= <-]; (split; [eauto|]); cbn [trace log];
      rewrite !reads_append, !checks_append, !app_nil_r; now split.
  - intros [= <-]. split; [eauto|]. cbn [trace log].
    rewrite !reads_append, !checks_append, !app_nil_r. now split.
Qed.

Lemma for_each_trace (files : list string) (s s' : state) :
  loop files s = (s', Returned tt) ->
  Forall (fun f => exists x, cloud_cover_value w (path_join input_dir f) = Returned x)
    (filter is_metadata files)
  /\ metadata_reads (trace s') =
     metadata_reads (trace s) ++ map (path_join input_dir) (filter is_metadata files)
  /\ stac_checks (trace s') =
     stac_checks (trace s) ++
     map (stac_path input_dir)
       (filter (passes w input_dir cloud_max) (filter is_metadata files)).
Proof.
  revert s. induction files as [|f r IH]; intros s.
  - intros [= <-]. simpl. rewrite !app_nil_r. repeat split. constructor.
  - unfold loop. cbn [for_each]. fold body.
    destruct (body f s) as [s1 [[]|e]] eqn:Eb; [|discriminate].
    fold loop. intros Hr. destruct (IH s1 Hr) as (Hx & Hreads & Hchecks).
    pose proof (process_file_trace f s Eb) as Hf. cbn [filter].
    destruct (is_metadata f).
    + destruct Hf as (Hfx & Hfr & Hfc). split; [now constructor|].
      rewrite Hreads, Hchecks, Hfr, Hfc. cbn [filter map].
      rewrite <- !app_assoc. split; [reflexivity|].
      now destruct (passes w input_dir cloud_max f).
    + subst s1. now repeat split.
Qed.

(** C6. A run of [select_scenes_to_shapefile] that returns is a single pass
    over the directory listing in ascending order of file names: every file
    whose name ends in [_metadata.json] is opened once, in that order, and
    the scene goes on to the geometry lookup if and only if its
    [cloud_cover] (1.0 when absent) is at most [cloud_max / 100]. *)
Theorem select_scenes_to_shapefile_single_pass
  (names : list string) (s : state) (n : nat) :
  listdir w input_dir = Returned names ->
  select_scenes_to_shapefile w input_dir cloud_max = (s, Returned n) ->
  let listing := sorted String.ltb (fun f => f) false names in
  let files := filter is_metadata listing in
  Permutation listing names
  /\ names_ascending listing
  /\ metadata_reads (trace s) = map (path_join input_dir) files
  /\ stac_checks (trace s) =
     map (stac_path input_dir) (filter (passes w input_dir cloud_max) files)
  /\ (forall f, In f files ->
        exists x, cloud_cover_value w (path_join input_dir f) = Returned x
                  /\ passes w input_dir cloud_max f = PrimFloat.leb x (cloud_max / 100)).
Proof.
  intros Hn Hrun listing files.
  split; [apply sorted_perm|]. split; [apply sorted_names_ascending|].
  unfold select_scenes_to_shapefile in Hrun. rewrite Hn in Hrun.
  fold listing in Hrun.
  destruct (for_each w input_dir cloud_max listing state0) as [s1 [[]|e]] eqn:El;
    [|discriminate].
  injection Hrun as <- _.
  destruct (for_each_trace listing state0 El) as (Hx & Hreads & Hchecks).
  split; [exact Hreads|]. split; [exact Hchecks|].
  intros f Hf. rewrite Forall_forall in Hx. destruct (Hx f Hf) as [x Ex].
  exists x. split; [exact Ex|]. unfold passes. now rewrite Ex.
Qed.
End ToShpFacts.

(** ** mosaic_by_geojson.py: what the script lists *)

Section ScriptListing.
Import Mosaic Spec ScriptReader.
Variable format_0f : float -> string.


Variable np_mean : list float -> float.
Variable DBSCAN_fit_predict : float -> Z -> list point -> outcome (list Z).



End ScriptListing.

(** ** The statements at sample inputs *)

Section SampleRuns.
Import Mosaic Spec ScriptReader Examples.

(** The model on the sample directory and scenes. *)
Example flood_run_decisions :
  map (fun r => (FloodAware.st_base r, FloodAware.st_selected r, FloodAware.st_reason r))
      (FloodAware.s_log (fst flood_run)) =
  [ ("a", true, "low_cloud"); ("b", false, "high_cloud_no_water");
    ("c", true, "high_cloud_water"); ("d", false, "high_cloud_no_water") ].
Proof. vm_compute. reflexivity. Qed.

Example shp_run_reads :
  metadata_reads (ToShp.trace (fst shp_run)) =
  [ "in/a_metadata.json"; "in/b_metadata.json"; "in/c_metadata.json";
    "in/d_metadata.json" ]
  /\ stac_checks (ToShp.trace (fst shp_run)) = ["in/a.json"]
  /\ snd shp_run = Returned 1.
Proof. vm_compute. repeat split. Qed.

Example two_clusters_calls :
  match generate_mosaic_script no_digits two_clusters "/data" "mosaic.sh" "aoi" None with
  | Returned r => read_invocations (script_lines r)
  | Raised _ => []
  end =
  [ ("cluster_1", [ "s2_3B_AnalyticMS_SR_file_format.tif";
                    "s3_3B_AnalyticMS_SR_file_format.tif";
                    "s1_3B_AnalyticMS_SR_file_format.tif" ]);
    ("single_1", ["s4_3B_AnalyticMS_SR_file_format.tif"]) ].
Proof. vm_compute. reflexivity. Qed.

(** A cluster without a scene makes [generate_mosaic_script] raise: [max] of
    no cloud cover. *)
Example empty_cluster_raises :
  generate_mosaic_script no_digits [("cluster_1", [])] "/data" "mosaic.sh" "aoi" None
  = Raised ValueError.
Proof. reflexivity. Qed.

(** A cloud cover that is not a number is neither at most nor above the
    threshold; the decision then rests on the water alone. *)
Example nan_cloud_cover_decision :
  fst nan_decision = (true, "high_cloud_water")
  /\ PrimFloat.leb PrimFloat.nan 80 = false
  /\ PrimFloat.ltb 80 PrimFloat.nan = false.
Proof. vm_compute. repeat split. Qed.


Lemma cluster_scenes_partition_on_sample :
  exists cl,
    cluster_scenes mean west_cluster four_scenes 1.5 2 = Returned cl
    /\ NoDup (map fst cl)
    /\ Forall (fun kv => snd kv <> []) cl
    /\ Permutation (List.concat (map snd cl)) four_scenes.
Proof.
  apply (@cluster_scenes_partition mean west_cluster four_scenes 1.5 2 [0; 0; 0; -1]%Z).
  - discriminate.
  - vm_compute. reflexivity.
  - reflexivity.
Defined.

Lemma cluster_scenes_density_call_on_sample :
  density_radius mean 1.5 four_scenes = 1.5%float
  /\ (forall e, west_cluster 1.5 2 (map centroid four_scenes) = Raised e ->
        cluster_scenes mean west_cluster four_scenes 1.5 2 = Raised e)
  /\ (forall labels, west_cluster 1.5 2 (map centroid four_scenes) = Returned labels ->
        cluster_scenes mean west_cluster four_scenes 1.5 2 =
        Returned (sort_each (organize four_scenes labels))).
Proof.
  assert (Hne : four_scenes <> []) by discriminate.
  pose proof (@cluster_scenes_density_call mean west_cluster four_scenes 1.5 2 Hne)
    as (He & Hr & Hl).
  assert (E : density_radius mean 1.5 four_scenes = 1.5%float)
    by (vm_compute; reflexivity).
  rewrite E in Hr, Hl. split; [exact E|]. split; [exact Hr|exact Hl].
Defined.


Lemma select_scenes_to_shapefile_single_pass_on_sample :
  let names := ["c_metadata.json"; "a_metadata.json"; "notes.txt";
                "d_metadata.json"; "b_metadata.json"] in
  let listing := sorted String.ltb (fun f => f) false names in
  let files := filter is_metadata listing in
  Permutation listing names
  /\ names_ascending listing
  /\ metadata_reads (ToShp.trace (fst shp_run)) = map (path_join "in") files
  /\ stac_checks (ToShp.trace (fst shp_run)) =
     map (stac_path "in") (filter (passes site "in" 60) files)
  /\ (forall f, In f files ->
        exists x, cloud_cover_value site (path_join "in" f) = Returned x
                  /\ passes site "in" 60 f = PrimFloat.leb x (60 / 100)).
Proof.
  apply (@select_scenes_to_shapefile_single_pass site "in" 60
           ["c_metadata.json"; "a_metadata.json"; "notes.txt";
            "d_metadata.json"; "b_metadata.json"]
           (fst shp_run) 1).
  - reflexivity.
  - vm_compute. reflexivity.
Defined.

Lemma filtering_deterministic_on_sample :
  filter_scenes_by_boundary reaches_west four_scenes 10%float =
  filter_scenes_by_boundary (fun pts b => negb (negb (reaches_west pts b)))
    four_scenes 10%float
  /\ (FloodAware.st_selected status_b = FloodAware.st_selected status_b
      /\ FloodAware.st_reason status_b = FloodAware.st_reason status_b).
Proof.
  destruct filtering_deterministic as [Hf Hd]. split.
  - apply Hf; [reflexivity|reflexivity|].
    intros sc _. now rewrite negb_involutive.
  - apply (Hd site site "in" "in" 1000%Z 1000%Z 80%float 1%float status_b status_b);
      try reflexivity; vm_compute; right; left; reflexivity.
Defined.

Lemma detect_water_extent_safe_on_sample :
  FloodAware.detect_water_extent site (tif_path "in" "b") (udm2_path "in" "b") 1000
    = Returned FloodAware.zero_result
  /\ FloodAware.st_selected status_b = false.
Proof.
  destruct (@detect_water_extent_safe site "in" 80 1000 1) as (_ & Hdef & Hrej).
  split.
  - apply Hdef. left. reflexivity.
  - apply (Hrej status_b).
    + vm_compute. right. left. reflexivity.
    + reflexivity.
    + left. reflexivity.
    + reflexivity.
Defined.

End SampleRuns.

(** * Further properties *)

From Stdlib Require Import DecimalNat DecimalZ.

(** ** select_scenes_flood_aware.py: water detection on readable imagery *)

Section WaterCounts.
Import FloodAware Terms.






End WaterCounts.

(** ** select_scenes_flood_aware.py: counters and shapes *)

Section FloodAwareOutput.
Import FloodAware Spec Terms.
Variable w : world.
Variables (input_dir : string) (cloud_max : float) (nir_threshold : Z)
          (min_water_pct : float).

Let body := process_scene w input_dir cloud_max nir_threshold min_water_pct.
Let loop := for_each w input_dir cloud_max nir_threshold min_water_pct.
Let run := select_scenes_flood_aware w input_dir cloud_max nir_threshold min_water_pct.

Ltac step_binds :=
  repeat match goal with
         | |- context [bind ?m _] =>
             let E := fresh "E" in destruct m eqn:E; cbn [bind]; try discriminate
         end.

Lemma flood_read_shape_fields (stac_file base reason : string) (data props : json)
  (cc : float) (water : water_info) (sh : json * shp_record) :
read_shape w stac_file base reason data props cc water = Returned (Some sh) ->
r_scene_id (snd sh) = base
/\ r_selection (snd sh) = reason
/\ r_cloud_cov (snd sh) = cc
/\ r_water_pct (snd sh) = water_pct water
/\ r_clear_pct (snd sh) = clear_pct water
/\ r_tif_file (snd sh) = (base ++ "_3B_AnalyticMS_SR_file_format.tif")%string.
Proof.
unfold read_shape. step_binds.
all: match goal with |- (if ?b then _ else _) = _ -> _ => destruct b end;
  try discriminate.
intros [= <-]. now repeat split.
Qed.

(** Every turn of the loop counts the scene. *)
Lemma process_scene_total (f : string) (s : state) :
total_scenes (s_stats (fst (body f s))) = S (total_scenes (s_stats s)).
Proof.
unfold body, process_scene.
destruct (read_metadata w input_dir f) as [[[data props] cc]|e]; [|reflexivity].
destruct (detect_water_extent w _ _ nir_threshold) as [water|e]; [|reflexivity].
unfold determine_selection.
destruct (PrimFloat.leb cc cloud_max);
  [|destruct (PrimFloat.leb min_water_pct (water_pct water))];
  try (destruct (path_exists w _);
       [destruct (read_shape w _ _ _ data props cc water) as [[shape|]|e]|]);
  reflexivity.
Qed.

Lemma for_each_total (files : list string) (s s' : state) :
loop files s = (s', Returned tt) ->
total_scenes (s_stats s') = total_scenes (s_stats s) + List.length files
/\ List.length (s_log s') = List.length (s_log s) + List.length files.
Proof.
revert s. induction files as [|f r IH]; intros s.
- intros [= <-]. simpl. lia.
- unfold loop. cbn [for_each]. fold body.
  pose proof (process_scene_total f s) as Ht.
  destruct (process_scene_log w input_dir cloud_max nir_threshold min_water_pct f s)
    as (extra & Hl & _ & Hb).
  fold body in Hl, Hb.
  destruct (body f s) as [s1 [[]|e]]; [|discriminate].
  fold loop. intros Hr. destruct (IH s1 Hr) as [H1 H2].
  simpl in Ht, Hl, Hb. specialize (Hb eq_refl).
  assert (List.length extra = 1) by (rewrite <- (length_map st_base), Hb; reflexivity).
  rewrite H1, H2, Ht, Hl, length_app. simpl. lia.
Qed.

(** X2. The statistics a run of [select_scenes_flood_aware] returns add up:
    every metadata file is counted once, as accepted or as rejected;
    [accepted] and [rejected] are the numbers of scenes printed as selected
    and as not selected; the accepted split into low cloud and high cloud with
    water, and every rejection is a high cloud without water. *)
Theorem flood_aware_statistics (names : list string) (st : stats) :
listdir w input_dir = Returned names ->
snd run = Returned st ->
let log := s_log (fst run) in
total_scenes st = List.length (metadata_files names)
/\ accepted st + rejected st = total_scenes st
/\ accepted st = List.length (filter st_selected log)
/\ rejected st = List.length (filter (fun r => negb (st_selected r)) log)
/\ low_cloud_accept st + high_cloud_water_accept st = accepted st
/\ high_cloud_no_water_reject st = rejected st.
Proof.
intros Hn Hr log.
pose proof (select_scenes_flood_aware_counts w input_dir cloud_max nir_threshold
              min_water_pct) as Hc.
fold run in Hc. unfold counters_agree in Hc. destruct Hc as (Ha & Hj & Hl & Hh).
subst log. revert Hr Ha Hj Hl Hh. unfold run, select_scenes_flood_aware.
rewrite Hn.
destruct (for_each w input_dir cloud_max nir_threshold min_water_pct
            (metadata_files names) state0) as [s [[]|e]] eqn:El; [|discriminate].
cbn [fst snd]. intros [= <-] Ha Hj Hl Hh.
destruct (for_each_total (metadata_files names) state0 El) as [Ht Hlen].
simpl in Ht, Hlen.
assert (Hpart : List.length (filter st_selected (s_log s))
                + List.length (filter (fun r => negb (st_selected r)) (s_log s))
                = List.length (s_log s)).
{ clear. induction (s_log s) as [|r l IH]; simpl; [reflexivity|].
  destruct (st_selected r); simpl; lia. }
repeat split; lia.
Qed.

Lemma process_scene_shapes (f : string) (s : state) :
shapes_ok s -> shapes_ok (fst (body f s)).
Proof.
unfold shapes_ok, body, process_scene. intros [Hs Hlen].
destruct (read_metadata w input_dir f) as [[[data props] cc]|e]; [|now split].
destruct (detect_water_extent w _ _ nir_threshold) as [water|e]; [|now split].
set (base := replace f "_metadata.json" "").
assert (Hold : forall r0,
          Forall (fun sh => exists r, In r (s_log s) /\ shape_of_status sh r) (s_shapes s) ->
          Forall (fun sh => exists r, In r (append (s_log s) r0) /\ shape_of_status sh r)
            (s_shapes s)).
{ intros r0 H. eapply Forall_impl; [|exact H]. intros sh (r & Hin & Hok).
  exists r. split; [|exact Hok]. unfold append. apply in_or_app. now left. }
unfold determine_selection.
destruct (PrimFloat.leb cc cloud_max);
  [|destruct (PrimFloat.leb min_water_pct (water_pct water))].
3:{ cbn [fst s_shapes s_log s_stats with_stats]. split; [now apply Hold|].
    simpl. exact Hlen. }
all: destruct (path_exists w _);
  [|cbn [fst s_shapes s_log s_stats with_stats]; split; [now apply Hold|simpl; lia]].
all: match goal with
     | |- context [read_shape w ?p ?b ?rs ?d ?pr ?c ?wt] =>
         destruct (read_shape w p b rs d pr c wt) as [[shape|]|e] eqn:Er
     end;
  cbn [fst s_shapes s_log s_stats with_stats];
  try (split; [now apply Hold|simpl; lia]).
all: split; [|unfold append; rewrite length_app; simpl; lia].
all: unfold append at 2; apply Forall_app; split; [now apply Hold|].
all: constructor; [|constructor].
all: eexists; split; [unfold append; apply in_or_app; right; left; reflexivity|].
all: destruct (flood_read_shape_fields _ _ _ _ _ _ _ Er) as (F1 & F2 & F3 & F4 & F5 & F6).
all: unfold shape_of_status; cbn [st_selected st_base st_reason st_cloud_cover st_water].
all: now repeat split.
Qed.

Lemma for_each_shapes (files : list string) (s : state) :
shapes_ok s -> shapes_ok (fst (loop files s)).
Proof.
revert s. induction files as [|f r IH]; intros s Hs; [exact Hs|].
unfold loop. cbn [for_each]. fold body.
pose proof (process_scene_shapes f Hs) as H1.
destruct (body f s) as [s' [[]|e]]; simpl in H1; [now apply IH|exact H1].
Qed.

(** X3. Every shape [select_scenes_flood_aware] hands to the shapefile writer
    belongs to a scene it printed as selected, and carries that scene's id,
    cloud cover, water figures, reason and TIFF name; there are at most as
    many shapes as accepted scenes (a selected scene without a STAC file or
    without a ring is counted and writes nothing). *)
Theorem flood_aware_shapes_selected :
Forall (fun sh => exists r, In r (s_log (fst run)) /\ shape_of_status sh r)
  (s_shapes (fst run))
/\ List.length (s_shapes (fst run)) <= accepted (s_stats (fst run)).
Proof.
change (shapes_ok (fst run)).
unfold run, select_scenes_flood_aware.
assert (H0 : shapes_ok state0) by (split; [constructor|simpl; lia]).
destruct (listdir w input_dir) as [names|e]; [|exact H0].
pose proof (for_each_shapes (metadata_files names) H0) as H. unfold loop in H.
destruct (for_each w input_dir cloud_max nir_threshold min_water_pct
            (metadata_files names) state0) as [s [[]|e]]; exact H.
Qed.
End FloodAwareOutput.

(** ** select_scenes_to_shp.py: the records written *)

Section ToShpOutput.
Import ToShp Spec Terms.
Variable w : world.
Variables (input_dir : string) (cloud_max : float).

Let body := process_file w input_dir cloud_max.
Let loop := for_each w input_dir cloud_max.
Let run := select_scenes_to_shapefile w input_dir cloud_max.

Ltac step_binds' :=
  repeat match goal with
         | |- context [bind ?m _] =>
             let E := fresh "E" in destruct m eqn:E; cbn [bind]; try discriminate
         end.

Lemma shp_read_shape_fields (stac_file base : string) (data props : json)
  (x : float) (poly : json) (rec : shp_record) :
read_shape w stac_file base data props x = Returned (Some (poly, rec)) ->
r_scene_id rec = base
/\ r_cloud_cov rec = (x * 100)%float
/\ r_tif_file rec = (base ++ "_3B_AnalyticMS_SR_file_format.tif")%string.
Proof.
unfold read_shape. step_binds'.
all: match goal with |- (if ?b then _ else _) = _ -> _ => destruct b end;
  try discriminate.
intros [= <- <-]. now repeat split.
Qed.

Lemma records_append (t : list event) (e : event) :
records_written (append t e) =
records_written t ++ match e with WriteShape _ r => [r] | _ => [] end.
Proof.
unfold records_written, append. rewrite flat_map_app. simpl. now rewrite app_nil_r.
Qed.

Let written_record_ok := record_ok w input_dir cloud_max.

Lemma process_file_records (f : string) (s : state) :
written_ok w input_dir cloud_max s ->
written_ok w input_dir cloud_max (fst (body f s)).
Proof.
unfold written_ok, body, process_file. intros [Hc Hr].
destruct (endswith f "_metadata.json") eqn:Em; [|now split].
pose proof (cloud_cover_value_read w (path_join input_dir f)) as Hv.
destruct (read_metadata w (path_join input_dir f)) as [[[data props] v]|e].
2:{ cbn [fst trace ToShp.count log]. rewrite records_append, app_nil_r. now split. }
cbn [bind snd] in Hv.
destruct (number v) as [x|e].
2:{ cbn [fst trace ToShp.count log]. rewrite records_append, app_nil_r. now split. }
fold (cloud_threshold cloud_max).
destruct (PrimFloat.leb x (cloud_threshold cloud_max)) eqn:El.
2:{ cbn [fst trace ToShp.count log]. rewrite records_append, app_nil_r. now split. }
fold (stac_path input_dir f).
destruct (path_exists w (stac_path input_dir f)) eqn:Ex.
2:{ cbn [fst trace ToShp.count log]. rewrite !records_append, !app_nil_r. now split. }
destruct (read_shape w _ _ data props x) as [[[poly rec]|]|e] eqn:Er;
  cbn [fst trace ToShp.count log]; rewrite !records_append, ?app_nil_r;
  try (now split).
rewrite length_app. split; [simpl; lia|].
apply Forall_app. split; [exact Hr|]. constructor; [|constructor].
destruct (shp_read_shape_fields _ _ _ _ _ Er) as (F1 & F2 & F3).
exists f, x. unfold is_metadata. repeat split; try assumption.
now rewrite F3, F1.
Qed.

Lemma for_each_records (files : list string) (s : state) :
written_ok w input_dir cloud_max s ->
written_ok w input_dir cloud_max (fst (loop files s)).
Proof.
revert s. induction files as [|f r IH]; intros s Hs; [exact Hs|].
unfold loop. cbn [for_each]. fold body.
pose proof (process_file_records f Hs) as H1.
destruct (body f s) as [s' [[]|e]]; simpl in H1; [now apply IH|exact H1].
Qed.

(** X4. The number [select_scenes_to_shapefile] returns is the number of
    records it wrote, and every record written comes from a metadata file of
    the directory whose [cloud_cover] is at most [cloud_max / 100] and whose
    STAC file exists: the record has the file's scene id, 100 times that
    cloud cover, and the TIFF name built from the scene id. *)
Theorem select_scenes_to_shapefile_records :
List.length (records_written (trace (fst run))) = ToShp.count (fst run)
/\ Forall written_record_ok (records_written (trace (fst run)))
/\ (forall n, snd run = Returned n ->
      n = List.length (records_written (trace (fst run)))).
Proof.
assert (H : written_ok w input_dir cloud_max (fst run)
            /\ forall n, snd run = Returned n -> n = ToShp.count (fst run)).
{ unfold run, select_scenes_to_shapefile.
  assert (H0 : written_ok w input_dir cloud_max state0) by (split; [reflexivity|constructor]).
  destruct (listdir w input_dir) as [names|e]; [|split; [exact H0|discriminate]].
  pose proof (for_each_records (sorted String.ltb (fun f => f) false names) H0) as H.
  unfold loop in H.
  destruct (for_each w input_dir cloud_max _ state0) as [s [[]|e]];
    (split; [exact H|]); [now intros n [= <-]|discriminate]. }
destruct H as [[Hc Hr] Hn]. split; [now symmetry|]. split; [exact Hr|].
intros n E. rewrite (Hn n E). exact Hc.
Qed.
End ToShpOutput.

(** ** mosaic_by_geojson.py: clusters without scenes, and ties *)

Section ScriptEdges.
Import Mosaic Spec Terms.
Variable format_0f : float -> string.




(** *** Ties keep their order *)

Section Stable.
Variables (A : Type) (key : A -> nat) (k : nat).

Let same (x : A) : bool := (key x =? k)%nat.
Let ascending := StronglySorted (fun a b : A => key a <= key b).

Lemma insert_StronglySorted (x : A) (l : list A) :
ascending l -> ascending (insert Nat.ltb key x l).
Proof.
intros H. apply Sorted_StronglySorted; [intros a b c; lia|].
apply (@insert_ascending _ _ Nat.ltb key (fun _ => True) le).
- intros a b E. apply Nat.ltb_lt in E. lia.
- intros a b _ _ E. apply Nat.ltb_ge in E. lia.
- exact I.
- apply Forall_forall. intros; exact I.
- now apply StronglySorted_Sorted.
Qed.

Lemma insert_same (x : A) (l : list A) :
ascending l ->
filter same (insert Nat.ltb key x l) = filter same l ++ (if same x then [x] else []).
Proof.
induction l as [|y r IH]; intros Hs; simpl.
- destruct (same x); reflexivity.
- inversion Hs as [|? ? Hr Hall]; subst.
  destruct (key x <? key y)%nat eqn:E.
  + apply Nat.ltb_lt in E. simpl.
    destruct (same x) eqn:Ex; [|now rewrite app_nil_r].
    unfold same in Ex. apply Nat.eqb_eq in Ex.
    assert (Hy : same y = false) by (unfold same; apply Nat.eqb_neq; lia).
    assert (Hnone : filter same r = []).
    { clear IH Hs Hr. induction r as [|z r' IHr]; [reflexivity|].
      inversion Hall; subst. simpl.
      replace (same z) with false by (symmetry; unfold same; apply Nat.eqb_neq; lia).
      now apply IHr. }
    rewrite Hy, Hnone. reflexivity.
  + simpl. rewrite (IH Hr). now destruct (same y).
Qed.

Lemma sort_ascending_same (l acc : list A) :
ascending acc ->
filter same (fold_left (fun acc x => insert Nat.ltb key x acc) l acc)
= filter same acc ++ filter same l.
Proof.
revert acc. induction l as [|x r IH]; intros acc Hs; simpl.
- now rewrite app_nil_r.
- rewrite IH by now apply insert_StronglySorted.
  rewrite insert_same by assumption. rewrite <- app_assoc.
  now destruct (same x).
Qed.

Lemma filter_rev (f : A -> bool) (l : list A) : filter f (rev l) = rev (filter f l).
Proof.
induction l as [|x r IH]; simpl; [reflexivity|].
rewrite filter_app, IH. simpl. destruct (f x); simpl; [reflexivity|now rewrite app_nil_r].
Qed.

(** Sorting largest first leaves the elements of one key in their order. *)
Lemma sorted_reverse_same (l : list A) :
filter same (sorted Nat.ltb key true l) = filter same l.
Proof.
unfold sorted, sort_ascending. rewrite filter_rev, sort_ascending_same by constructor.
simpl. rewrite filter_rev. apply rev_involutive.
Qed.
End Stable.

(** X6. Clusters of equal size keep, in the order [generate_mosaic_script]
    lists and returns them, the order they have in the cluster map. *)
Theorem generate_mosaic_script_ties (cl : clusters)
  (data_dir output_script aoi_name : string) (otb_path : option string)
  (r : script) (size : nat) :
generate_mosaic_script format_0f cl data_dir output_script aoi_name otb_path
  = Returned r ->
filter (fun kv => (List.length (snd kv) =? size)%nat) (sorted_clusters r)
= filter (fun kv => (List.length (snd kv) =? size)%nat) cl.
Proof.
unfold generate_mosaic_script.
destruct (append_clusters format_0f (sort_clusters cl) _) as [lines|e];
  [|discriminate].
cbn [bind]. intros [= <-]. cbn [sorted_clusters].
apply (sorted_reverse_same (fun kv : string * list scene => List.length (snd kv))).
Qed.
End ScriptEdges.

(** ** mosaic_by_geojson.py: which scenes share a cluster *)

Section Grouping.
Import Mosaic Spec Terms.
Variable np_mean : list float -> float.
Variable DBSCAN_fit_predict : float -> Z -> list point -> outcome (list Z).

Lemma str_of_nat_inj (a b : nat) : str_of_nat a = str_of_nat b -> a = b.
Proof.
unfold str_of_nat. intros H. apply DecimalNat.Unsigned.to_uint_inj.
pose proof (NilEmpty.usu (Nat.to_uint a)) as Ha. rewrite H, NilEmpty.usu in Ha.
now injection Ha.
Qed.





Lemma dict_append_new (V : Type) (k : string) (x : V) (d : dict (list V)) :
~ In k (map fst d) -> dict_append k x d = d ++ [(k, [x])].
Proof.
induction d as [|[k' v] r IH]; intros Hn.
- apply dict_append_nil.
- rewrite dict_append_cons. simpl in Hn.
  destruct (String.eqb k k') eqn:E.
  + apply String.eqb_eq in E. exfalso. apply Hn. now left.
  + simpl. f_equal. apply IH. tauto.
Qed.

Lemma dict_append_filter (V : Type) (p : string * list V -> bool) (k : string) (x : V)
  (d : dict (list V)) :
(forall v, p (k, v) = false) ->
filter p (dict_append k x d) = filter p d.
Proof.
intros Hp. induction d as [|[k' v] r IH].
- rewrite dict_append_nil. simpl. now rewrite Hp.
- rewrite dict_append_cons. destruct (String.eqb k k') eqn:E.
  + apply String.eqb_eq in E. subst k'. simpl. now rewrite !Hp.
  + simpl. now rewrite IH.
Qed.

Lemma dict_append_Forall (V : Type) (Q : string * list V -> Prop) (k : string) (x : V)
  (d : dict (list V)) :
(forall v, Q (k, v)) -> Forall Q d -> Forall Q (dict_append k x d).
Proof.
intros Hq. induction d as [|[k' v] r IH]; intros H.
- rewrite dict_append_nil. now repeat constructor.
- rewrite dict_append_cons. inversion H; subst. destruct (String.eqb k k') eqn:E.
  + apply String.eqb_eq in E. subst k'. now constructor.
  + constructor; [assumption|now apply IH].
Qed.

Lemma single_key_new (cl : clusters) (n : nat) :
singles_ok (cl, n) -> ~ In ("single_" ++ str_of_nat (S n))%string (map fst cl).
Proof.
intros [Hk _] Hin. cbn [fst snd] in Hk.
assert (H : In ("single_" ++ str_of_nat (S n))%string (map fst (filter is_single cl))).
{ apply in_map_iff in Hin. destruct Hin as ([k l] & E & Hin). simpl in E. subst k.
  apply in_map_iff. exists ("single_" ++ str_of_nat (S n), l)%string.
  split; [reflexivity|]. apply filter_In. split; [exact Hin|reflexivity]. }
rewrite Hk in H. apply in_map_iff in H. destruct H as (j & E & Hj).
injection E as E. apply str_of_nat_inj in E. apply in_seq in Hj. lia.
Qed.

Lemma organize_step_singles (st : clusters * nat) (sc : scene) (label : Z) :
singles_ok st ->
singles_ok (organize_step st (sc, label))
/\ snd (organize_step st (sc, label)) = snd st + (if (label =? -1)%Z then 1 else 0).
Proof.
destruct st as [cl n]. intros Hs. pose proof Hs as [Hk Hf]. cbn [fst snd] in Hk, Hf.
unfold organize_step. destruct (label =? -1)%Z.
- rewrite dict_append_new by now apply single_key_new.
  split; [|cbn [snd]; lia]. split; cbn [fst snd].
  + rewrite filter_app, map_app, Hk, seq_S, map_app. reflexivity.
  + apply Forall_app. split; [exact Hf|]. now repeat constructor.
- split; [|cbn [snd]; lia]. split; cbn [fst snd].
  + rewrite dict_append_filter by reflexivity. exact Hk.
  + apply dict_append_Forall; [|exact Hf]. intros v. discriminate.
Qed.

Lemma organize_fold_singles (sl : list (scene * Z)) (st : clusters * nat) :
singles_ok st ->
singles_ok (fold_left organize_step sl st)
/\ snd (fold_left organize_step sl st)
   = snd st + List.length (filter (fun l => (l =? -1)%Z) (map snd sl)).
Proof.
revert st. induction sl as [|[sc label] r IH]; intros st Hs; simpl.
- split; [exact Hs|lia].
- destruct (organize_step_singles sc label Hs) as [H1 H2].
  destruct (IH _ H1) as [H3 H4]. split; [exact H3|].
  rewrite H4, H2. destruct (label =? -1)%Z; simpl; lia.
Qed.

Lemma map_snd_combine (A B : Type) (l : list A) (l' : list B) :
List.length l' = List.length l -> map snd (combine l l') = l'.
Proof.
revert l'. induction l as [|a l IH]; intros [|b l'] H; simpl in *;
  try discriminate; [reflexivity|]. f_equal. apply IH. now injection H.
Qed.

Lemma sort_each_filter_single (cl : clusters) :
List.length (filter is_single (sort_each cl)) = List.length (filter is_single cl).
Proof.
unfold sort_each. induction cl as [|[k l] r IH]; [reflexivity|].
cbn [map filter fst snd].
change (is_single (k, sort_cluster l)) with (startswith k "single_").
change (is_single (k, l)) with (startswith k "single_").
destruct (startswith k "single_"); cbn [List.length]; now rewrite IH.
Qed.

(** X7. Every scene the clustering labels as noise gets a cluster of its own:
    in the map [cluster_scenes] returns, the clusters whose id starts with
    [single_] hold exactly one scene each, and there are as many of them as
    noise labels. *)
Theorem cluster_scenes_singles (scenes : list scene) (eps_factor : float)
  (min_samples : Z) (labels : list Z) :
scenes <> [] ->
DBSCAN_fit_predict (density_radius np_mean eps_factor scenes) min_samples
  (map centroid scenes) = Returned labels ->
List.length labels = List.length scenes ->
exists cl,
  cluster_scenes np_mean DBSCAN_fit_predict scenes eps_factor min_samples = Returned cl
  /\ Forall (fun kv => is_single kv = true -> List.length (snd kv) = 1) cl
  /\ List.length (filter is_single cl)
     = List.length (filter (fun l => (l =? -1)%Z) labels).
Proof.
intros Hne Hd Hlen. exists (sort_each (organize scenes labels)).
split; [now apply (cluster_scenes_returned np_mean DBSCAN_fit_predict)|].
destruct (organize_fold_singles (combine scenes labels) (st := ([], 0)))
  as [[Hk Hf] Hn]; [split; [reflexivity|constructor]|].
rewrite map_snd_combine in Hn by assumption. cbn [snd] in Hn.
fold (organize scenes labels) in Hk, Hf. split.
- unfold sort_each. rewrite Forall_map. eapply Forall_impl; [|exact Hf].
  intros [k l] H Hs. simpl in *. rewrite <- (H Hs).
  apply Permutation_length, sort_cluster_perm.
- rewrite sort_each_filter_single, <- (length_map fst), Hk, length_map, length_seq.
  exact Hn.
Qed.




End Grouping.

(** ** mosaic_by_geojson.py: [main] *)

Section MainFacts.
Import Mosaic MosaicMain Spec Terms ScriptReader.
Variable Geometry : Type.
Variable shape : json -> outcome Geometry.
Variable unary_union : list Geometry -> outcome Geometry.
Variable intersects : list point -> Geometry -> bool.
Variable np_mean : list float -> float.
Variable DBSCAN_fit_predict : float -> Z -> list point -> outcome (list Z).
Variable format_0f : float -> string.
Variable isdir : string -> bool.
Variable read_shapefile_scenes : string -> outcome (list scene).
Variable w : world.

Let run := main shape unary_union intersects np_mean DBSCAN_fit_predict format_0f
             isdir read_shapefile_scenes w.







End MainFacts.

(** ** mosaic_by_geojson.py: the boundary of a collection of one feature *)

Section BoundaryFacts.
Import MosaicMain.
Variable Geometry : Type.
Variable shape : json -> outcome Geometry.

(** X12. A feature collection that holds a single feature gives the boundary
    that feature gives on its own, whatever the union routine is: the union
    is not taken. *)
Theorem boundary_of_single_feature
  (union1 union2 : list Geometry -> outcome Geometry)
  (collection feature : list (string * json)) :
dict_get "type" collection = Some (JStr "FeatureCollection") ->
dict_get "features" collection = Some (JArr [JObj feature]) ->
dict_get "type" feature = Some (JStr "Feature") ->
boundary_of shape union1 (JObj collection) = boundary_of shape union2 (JObj feature).
Proof.
intros Ht Hf Hft. unfold boundary_of. cbn [item]. rewrite Ht, Hft, Hf.
cbn [bind is_str iterate for_list item].
change (String.eqb "FeatureCollection" "FeatureCollection") with true.
change (String.eqb "Feature" "FeatureCollection") with false.
change (String.eqb "Feature" "Feature") with true. cbn iota.
destruct (dict_get "geometry" feature) as [g|]; cbn [bind]; [|reflexivity].
destruct (shape g); reflexivity.
Qed.
End BoundaryFacts.

(** ** The scene id of a metadata file *)

Section BaseNames.
Import Spec Terms.



End BaseNames.

Section SceneIds.
Import Spec Terms.

End SceneIds.

Section FloodAwareEdges.
Import FloodAware Spec Terms.
Variable w : world.
Variables (input_dir : string) (cloud_max : float) (nir_threshold : Z)
          (min_water_pct : float).

Let run := select_scenes_flood_aware w input_dir cloud_max nir_threshold min_water_pct.

(** X14. A run of [select_scenes_flood_aware] that returns has printed one
    status for each file of the directory whose name ends in
    [_metadata.json], and for no other, in ascending order of the file names,
    each under the name of its file with [_metadata.json] taken out. *)
Theorem flood_aware_one_status_per_file (names : list string) (st : stats) :
listdir w input_dir = Returned names ->
snd run = Returned st ->
map st_base (s_log (fst run))
= map (fun f => replace f "_metadata.json" "") (metadata_files names)
/\ names_ascending (metadata_files names)
/\ Permutation (metadata_files names) (filter is_metadata names).
Proof.
intros Hn Hr. split; [|split].
- exact (@select_scenes_flood_aware_scenes w input_dir cloud_max nir_threshold
           min_water_pct names st Hn Hr).
- apply sorted_names_ascending.
- apply sorted_perm.
Qed.

Lemma nan_leb_l (x y : float) : PrimFloat.is_nan x = true -> PrimFloat.leb x y = false.
Proof.
unfold PrimFloat.is_nan. rewrite FloatAxioms.eqb_spec, FloatAxioms.leb_spec.
unfold SFeqb, SFleb.
destruct (Prim2SF x) as [sx|sx| |sx mx ex]; simpl; try reflexivity.
- discriminate.
- destruct sx; discriminate.
- destruct sx; rewrite Z.compare_refl, Pos.compare_cont_refl; discriminate.
Qed.

Lemma nan_leb_r (x y : float) : PrimFloat.is_nan y = true -> PrimFloat.leb x y = false.
Proof.
unfold PrimFloat.is_nan. rewrite FloatAxioms.eqb_spec, FloatAxioms.leb_spec.
unfold SFeqb, SFleb.
destruct (Prim2SF y) as [sy|sy| |sy my ey]; simpl.
- discriminate.
- destruct sy; discriminate.
- intros _. now destruct (Prim2SF x).
- destruct sy; rewrite Z.compare_refl, Pos.compare_cont_refl; discriminate.
Qed.

(** X15. A scene whose cloud cover is not a number (NaN), or any scene when
    [cloud_max] is NaN, is never accepted as low cloud: it is accepted if and
    only if the water detected is at least [min_water_pct]. *)
Theorem flood_aware_nan (r : status) :
In r (s_log (fst run)) ->
PrimFloat.is_nan (st_cloud_cover r) = true \/ PrimFloat.is_nan cloud_max = true ->
st_selected r = PrimFloat.leb min_water_pct (water_pct (st_water r))
/\ st_reason r = (if st_selected r then "high_cloud_water" else "high_cloud_no_water").
Proof.
intros Hin Hnan.
pose proof (select_scenes_flood_aware_log w input_dir cloud_max nir_threshold
              min_water_pct) as Hlog.
rewrite Forall_forall in Hlog. destruct (Hlog r Hin) as [_ Hd].
unfold decision in Hd.
assert (E : PrimFloat.leb (st_cloud_cover r) cloud_max = false)
  by (destruct Hnan; [now apply nan_leb_l|now apply nan_leb_r]).
rewrite E in Hd.
destruct (PrimFloat.leb min_water_pct (water_pct (st_water r)));
  injection Hd as -> ->; now split.
Qed.
End FloodAwareEdges.

(** ** mosaic_by_geojson.py: the text of the script *)

Section ScriptText.
Import Mosaic Spec Terms ScriptReader.
Variable format_0f : float -> string.

Lemma append_nil_r (s : string) : (s ++ EmptyString)%string = s.
Proof. induction s as [|c s IH]; simpl; [reflexivity|now rewrite IH]. Qed.

Lemma one_line_app (a b : string) :
one_line (a ++ b)%string = one_line a && one_line b.
Proof.
induction a as [|c a IH]; simpl; [reflexivity|].
rewrite IH. now rewrite andb_assoc.
Qed.

Lemma split_lines_nonempty (t : string) : split_lines t <> [].
Proof.
destruct t as [|c t]; simpl; [discriminate|].
destruct (Ascii.eqb c "010"); [discriminate|].
destruct (split_lines t); discriminate.
Qed.

Lemma split_lines_app (s t : string) :
one_line s = true ->
split_lines (s ++ t)%string =
match split_lines t with
| l :: ls => (s ++ l)%string :: ls
| [] => [s]
end.
Proof.
induction s as [|c s IH]; intros H; simpl.
- pose proof (split_lines_nonempty t). now destruct (split_lines t).
- simpl in H. apply andb_prop in H. destruct H as [Hc Hs].
  apply negb_true_iff in Hc. rewrite Hc, (IH Hs).
  now destruct (split_lines t).
Qed.

(** Splitting at newlines undoes joining with newlines, for lines that hold
    none. *)
Lemma split_lines_join (lines : list string) :
lines <> [] ->
Forall (fun l => one_line l = true) lines ->
split_lines (join nl lines) = lines.
Proof.
unfold join. induction lines as [|x r IH]; intros Hne H; [congruence|].
inversion H as [|? ? Hx Hr]; subst. destruct r as [|y r'].
- change (concat nl [x]) with x.
  transitivity (split_lines (x ++ EmptyString)%string); [now rewrite append_nil_r|].
  rewrite split_lines_app by assumption. cbn [split_lines].
  f_equal. apply append_nil_r.
- change (concat nl (x :: y :: r')) with (x ++ nl ++ concat nl (y :: r'))%string.
  rewrite split_lines_app by assumption.
  change (split_lines (nl ++ concat nl (y :: r'))%string)
    with (EmptyString :: split_lines (concat nl (y :: r'))).
  cbv beta iota. rewrite append_nil_r. f_equal. apply IH; [discriminate|assumption].
Qed.

Lemma one_line_uint (d : Decimal.uint) : one_line (NilEmpty.string_of_uint d) = true.
Proof. induction d; simpl; assumption || reflexivity. Qed.

Lemma one_line_path_join (a b : string) :
one_line a = true -> one_line b = true -> one_line (path_join a b) = true.
Proof.
intros Ha Hb. unfold path_join.
destruct (startswith b "/"); [assumption|].
destruct (String.eqb a EmptyString || endswith a "/");
  rewrite !one_line_app, Ha, Hb; reflexivity.
Qed.

Ltac one_line_lines :=
  repeat constructor; unfold bar, quoted;
  rewrite ?one_line_app; cbn [one_line Ascii.eqb Bool.eqb negb andb dq String.append];
  repeat match goal with H : one_line _ = true |- _ => rewrite H end;
  reflexivity.

Lemma one_line_header (aoi_name otb_path data_dir output_dir : string) :
one_line aoi_name = true -> one_line otb_path = true ->
one_line data_dir = true -> one_line output_dir = true ->
Forall (fun l => one_line l = true)
  (header_lines aoi_name otb_path data_dir output_dir).
Proof. intros Ha Ho Hd Hu. unfold header_lines. one_line_lines. Qed.

Lemma one_line_footer : Forall (fun l => one_line l = true) footer_lines.
Proof. unfold footer_lines. one_line_lines. Qed.

Lemma one_line_arguments (l : list scene) :
Forall (fun sc => one_line (tif_file sc) = true) l ->
Forall (fun s => one_line s = true) (argument_lines l).
Proof.
induction 1 as [|sc r Hsc Hr IH]; [constructor|].
destruct r as [|sc' r'].
- cbn [argument_lines]. constructor; [|constructor].
  unfold quoted. rewrite !one_line_app, Hsc. reflexivity.
- change (argument_lines (sc :: sc' :: r'))
    with (("    " ++ quoted (tif_file sc) ++ " \")%string :: argument_lines (sc' :: r')).
  constructor; [|exact IH]. unfold quoted. rewrite !one_line_app, Hsc. reflexivity.
Qed.

Hypothesis format_one_line : forall x, one_line (format_0f x) = true.

Lemma append_cluster_one_line (lines lines' : list string) (id : string)
  (l : list scene) :
Forall (fun s => one_line s = true) lines ->
one_line id = true ->
Forall (fun sc => one_line (tif_file sc) = true) l ->
append_cluster format_0f lines (id, l) = Returned lines' ->
Forall (fun s => one_line s = true) lines'.
Proof.
intros Hlines Hid Hl. unfold append_cluster.
destruct (max_float (map cloud_cov l)) as [hi|e]; [|discriminate].
destruct (min_float (map cloud_cov l)) as [lo|e]; [|discriminate].
cbn [bind]. unfold enumerate. rewrite scene_lines_fold by reflexivity.
intros [= <-]. unfold append. rewrite !Forall_app.
split; [split; [split; [split; [assumption|]|]|]|].
- constructor; [|constructor]. unfold str_of_nat.
  repeat first [progress cbn [one_line] | rewrite one_line_app].
  rewrite Hid, one_line_uint, !format_one_line. reflexivity.
- constructor; [|constructor].
  repeat first [progress cbn [one_line] | rewrite one_line_app].
  rewrite Hid. reflexivity.
- now apply one_line_arguments.
- now repeat constructor.
Qed.

Lemma append_clusters_one_line (items : list (string * list scene))
  (lines lines' : list string) :
Forall (fun s => one_line s = true) lines ->
Forall (fun kv => one_line (fst kv) = true
                  /\ Forall (fun sc => one_line (tif_file sc) = true) (snd kv)) items ->
append_clusters format_0f items lines = Returned lines' ->
Forall (fun s => one_line s = true) lines'.
Proof.
revert lines. induction items as [|[id l] r IH]; intros lines Hlines Hitems.
- now intros [= <-].
- inversion Hitems as [|? ? [Hid Hl] Hr]; subst. cbn [append_clusters].
  destruct (append_cluster format_0f lines (id, l)) as [lines1|e] eqn:E;
    [|discriminate].
  cbn [bind]. apply IH; [|exact Hr]. simpl in Hid, Hl.
  eapply append_cluster_one_line; eassumption.
Qed.

(** X16. When no name that goes into the script holds a newline (directory,
    area name, binary path, cluster ids, TIFF names, formatted numbers), the
    text [generate_mosaic_script] writes splits at its newlines into the lines
    generated, so the calls read back from the text itself are the clusters
    in the order returned, each with the TIFF names of its scenes. *)
Theorem generate_mosaic_script_text (cl : clusters)
  (data_dir output_script aoi_name : string) (otb_path : option string) :
Forall (fun kv => snd kv <> []) cl ->
one_line data_dir = true ->
one_line aoi_name = true ->
one_line (match otb_path with Some p => p | None => default_otb_path end) = true ->
Forall (fun kv => one_line (fst kv) = true
                  /\ Forall (fun sc => one_line (tif_file sc) = true) (snd kv)) cl ->
exists r,
  generate_mosaic_script format_0f cl data_dir output_script aoi_name otb_path
    = Returned r
  /\ split_lines (script_text r) = script_lines r
  /\ read_invocations (split_lines (script_text r)) = listing (sorted_clusters r).
Proof.
intros Hne Hd Ha Ho Hcl.
destruct (generate_mosaic_script_written format_0f data_dir output_script aoi_name
            otb_path Hne) as (r & Hr & _ & Ht & _ & Hread & _).
exists r. split; [exact Hr|].
assert (Hsplit : split_lines (script_text r) = script_lines r).
{ rewrite Ht. revert Hr. unfold generate_mosaic_script.
  destruct (append_clusters format_0f (sort_clusters cl) _) as [lines|e] eqn:E;
    [|discriminate].
  cbn [bind]. intros [= <-]. cbn [script_lines]. unfold extend.
  apply split_lines_join.
  - unfold footer_lines. intros H. apply app_eq_nil in H. destruct H; discriminate.
  - apply Forall_app. split; [|apply one_line_footer].
    eapply append_clusters_one_line; cycle 2; [exact E| |].
    + apply one_line_header; try assumption.
      apply one_line_path_join; [assumption|].
      rewrite one_line_app, Ha. reflexivity.
    + eapply Permutation_Forall; [symmetry; apply sort_clusters_perm|exact Hcl]. }
split; [exact Hsplit|]. now rewrite Hsplit.
Qed.
End ScriptText.

(** ** mosaic_by_geojson.py: the name of the area of interest *)

Section AoiName.
Import Mosaic MosaicMain Spec Terms.

Lemma after_last_lacks (c : ascii) (s : string) :
lacks c s = true -> after_last c s = None.
Proof.
induction s as [|a r IH]; intros H; [reflexivity|].
simpl in H. apply andb_prop in H. destruct H as [Ha Hr].
apply negb_true_iff in Ha. simpl. now rewrite (IH Hr), Ha.
Qed.

Lemma after_last_app (c : ascii) (a b : string) :
lacks c b = true -> after_last c (a ++ String c b)%string = Some b.
Proof.
intros H. induction a as [|x a IH]; simpl.
- now rewrite (after_last_lacks c b H), Ascii.eqb_refl.
- now rewrite IH.
Qed.

Lemma length_append (a b : string) :
String.length (a ++ b)%string = String.length a + String.length b.
Proof. induction a as [|x a IH]; simpl; [reflexivity|now rewrite IH]. Qed.

Lemma substring_prefix (a b : string) :
substring 0 (String.length a) (a ++ b)%string = a.
Proof.
induction a as [|x a IH]; simpl.
- now destruct b.
- now rewrite IH.
Qed.

(** The area name [main] derives from the path of the GeoJSON file: the file
    name without its directory and without its extension. *)
Lemma aoi_name_of_path (dir stem ext : string) :
lacks "/" stem = true -> lacks "/" ext = true -> lacks "." ext = true ->
existsb (fun a => negb (Ascii.eqb a ".")) (list_ascii_of_string stem) = true ->
splitext_root (basename (dir ++ "/" ++ stem ++ "." ++ ext)%string) = stem.
Proof.
intros Hs He Hd Hn.
assert (Hname : lacks "/" (stem ++ "." ++ ext)%string = true).
{ clear Hn Hd. induction stem as [|x s IH]; simpl in *.
  - exact He.
  - apply andb_prop in Hs. destruct Hs as [Hx Hs]. rewrite Hx. now apply IH. }
unfold basename.
change (dir ++ "/" ++ stem ++ "." ++ ext)%string
  with (dir ++ String "/" (stem ++ "." ++ ext))%string.
rewrite (after_last_app "/" dir _ Hname).
unfold splitext_root.
change (stem ++ "." ++ ext)%string with (stem ++ String "." ext)%string.
rewrite (after_last_app "." stem ext Hd).
rewrite length_append. cbn [String.length].
replace (String.length stem + S (String.length ext) - String.length ext - 1)
  with (String.length stem) by lia.
rewrite substring_prefix, Hn. reflexivity.
Qed.

Variable Geometry : Type.
Variable shape : json -> outcome Geometry.
Variable unary_union : list Geometry -> outcome Geometry.
Variable intersects : list point -> Geometry -> bool.
Variable np_mean : list float -> float.
Variable DBSCAN_fit_predict : float -> Z -> list point -> outcome (list Z).
Variable format_0f : float -> string.
Variable isdir : string -> bool.
Variable read_shapefile_scenes : string -> outcome (list scene).
Variable w : world.

Lemma append_cluster_prefix (lines lines' : list string) (item : string * list scene) :
append_cluster format_0f lines item = Returned lines' ->
exists body, lines' = lines ++ body.
Proof.
destruct item as [id l]. unfold append_cluster.
destruct (max_float (map cloud_cov l)) as [hi|e]; [|discriminate].
destruct (min_float (map cloud_cov l)) as [lo|e]; [|discriminate].
cbn [bind]. unfold enumerate. rewrite scene_lines_fold by reflexivity.
intros [= <-]. unfold Py.append. rewrite <- !app_assoc. eexists. reflexivity.
Qed.

Lemma append_clusters_prefix (items : list (string * list scene))
  (lines lines' : list string) :
append_clusters format_0f items lines = Returned lines' ->
exists body, lines' = lines ++ body.
Proof.
revert lines. induction items as [|item r IH]; intros lines.
- intros [= <-]. exists []. now rewrite app_nil_r.
- cbn [append_clusters].
  destruct (append_cluster format_0f lines item) as [lines1|e] eqn:E; [|discriminate].
  cbn [bind]. intros H. destruct (append_cluster_prefix _ _ E) as [b1 ->].
  destruct (IH _ H) as [b2 ->]. exists (b1 ++ b2). now rewrite app_assoc.
Qed.

(** X17. The script [main] writes is named after the GeoJSON file: for a
    path [dir/stem.ext] it is generated for the area [stem], and its output
    directory is [mosaic_stem] under the data directory. *)
Theorem main_output_directory (a : args) (s : script) (dir stem ext : string) :
a_geojson a = (dir ++ "/" ++ stem ++ "." ++ ext)%string ->
lacks "/" stem = true -> lacks "/" ext = true -> lacks "." ext = true ->
existsb (fun c => negb (Ascii.eqb c ".")) (list_ascii_of_string stem) = true ->
main shape unary_union intersects np_mean DBSCAN_fit_predict format_0f isdir
  read_shapefile_scenes w a = Success s ->
nth_error (script_lines s) 2 = Some ("# Auto-generated mosaic script for " ++ stem)%string
/\ nth_error (script_lines s) 8 = Some ("INPUT_DIR=" ++ quoted (a_data_dir a))%string
/\ nth_error (script_lines s) 9 =
   Some ("OUTPUT_DIR=" ++ quoted (path_join (a_data_dir a) ("mosaic_" ++ stem)))%string.
Proof.
intros Hg Hs He Hd Hn. unfold main.
destruct (path_exists w (a_shapefile a)); [|discriminate].
destruct (path_exists w (a_geojson a)); [|discriminate].
destruct (isdir (a_data_dir a)); [|discriminate]. cbn [negb].
destruct (read_geojson_boundary shape unary_union w (a_geojson a)); [|discriminate].
destruct (read_shapefile_scenes (a_shapefile a)); [|discriminate].
destruct (filter_scenes_by_boundary intersects _ _) as [|sc0 kept]; [discriminate|].
destruct (cluster_scenes np_mean DBSCAN_fit_predict _ _ _) as [cl|e]; [|discriminate].
destruct (summary _); [|discriminate].
rewrite Hg, (@aoi_name_of_path dir stem ext Hs He Hd Hn).
unfold generate_mosaic_script.
destruct (append_clusters format_0f (sort_clusters cl) _) as [lines|e] eqn:E;
  [|discriminate].
cbn [bind]. intros [= <-]. cbn [script_lines]. unfold extend.
destruct (append_clusters_prefix _ _ E) as [body ->].
rewrite <- !app_assoc. repeat split; reflexivity.
Qed.
End AoiName.

(** ** The further statements at sample inputs *)

Section FurtherSamples.
Import Mosaic MosaicMain Spec Terms ScriptReader Examples Samples.


Lemma flood_aware_statistics_on_sample :
let st := FloodAware.s_stats (fst flood_run) in
FloodAware.total_scenes st = 4
/\ FloodAware.accepted st + FloodAware.rejected st = FloodAware.total_scenes st
/\ FloodAware.accepted st = 2
/\ FloodAware.rejected st = 2
/\ FloodAware.low_cloud_accept st + FloodAware.high_cloud_water_accept st
   = FloodAware.accepted st
/\ FloodAware.high_cloud_no_water_reject st = FloodAware.rejected st.
Proof.
pose proof (@flood_aware_statistics site "in" 80 1000 1
              ["c_metadata.json"; "a_metadata.json"; "notes.txt";
               "d_metadata.json"; "b_metadata.json"]
              (FloodAware.s_stats (fst flood_run)) eq_refl) as H.
assert (Hr : snd (FloodAware.select_scenes_flood_aware site "in" 80 1000 1)
             = Returned (FloodAware.s_stats (fst flood_run)))
  by (vm_compute; reflexivity).
destruct (H Hr) as (H1 & H2 & H3 & H4 & H5 & H6).
repeat split; try assumption; vm_compute; reflexivity.
Defined.


Lemma generate_mosaic_script_ties_on_sample :
filter (fun kv => (List.length (snd kv) =? 1)%nat) (sorted_clusters three_clusters_script)
= filter (fun kv => (List.length (snd kv) =? 1)%nat) three_clusters.
Proof.
apply (@generate_mosaic_script_ties no_digits three_clusters "/data" "mosaic.sh" "aoi"
         None three_clusters_script 1).
vm_compute. reflexivity.
Defined.

Lemma cluster_scenes_singles_on_sample :
exists cl,
  cluster_scenes mean west_cluster four_scenes 1.5 2 = Returned cl
  /\ Forall (fun kv => is_single kv = true -> List.length (snd kv) = 1) cl
  /\ List.length (filter is_single cl) = 1.
Proof.
apply (@cluster_scenes_singles mean west_cluster four_scenes 1.5 2 [0; 0; 0; -1]%Z).
- discriminate.
- vm_compute. reflexivity.
- reflexivity.
Defined.






Lemma boundary_of_single_feature_on_sample :
boundary_of bound_of widest (JObj west_collection)
= boundary_of bound_of (fun _ => Raised LibraryError) (JObj west_feature).
Proof.
apply (@boundary_of_single_feature float bound_of widest (fun _ => Raised LibraryError)
         west_collection west_feature); reflexivity.
Defined.


Lemma flood_aware_one_status_per_file_on_sample :
let names := ["c_metadata.json"; "a_metadata.json"; "notes.txt";
              "d_metadata.json"; "b_metadata.json"] in
map FloodAware.st_base (FloodAware.s_log (fst flood_run))
= map (fun f => replace f "_metadata.json" "") (FloodAware.metadata_files names)
/\ names_ascending (FloodAware.metadata_files names)
/\ Permutation (FloodAware.metadata_files names) (filter is_metadata names).
Proof.
apply (@flood_aware_one_status_per_file site "in" 80 1000 1
         ["c_metadata.json"; "a_metadata.json"; "notes.txt";
          "d_metadata.json"; "b_metadata.json"]
         (FloodAware.s_stats (fst flood_run))).
- reflexivity.
- vm_compute. reflexivity.
Defined.

Lemma flood_aware_nan_on_sample :
FloodAware.st_selected odd_status
= PrimFloat.leb 1 (FloodAware.water_pct (FloodAware.st_water odd_status))
/\ FloodAware.st_reason odd_status
   = (if FloodAware.st_selected odd_status
      then "high_cloud_water" else "high_cloud_no_water")%string.
Proof.
apply (@flood_aware_nan odd_site "in" 80 1000 1 odd_status).
- vm_compute. left. reflexivity.
- left. reflexivity.
Defined.

Lemma generate_mosaic_script_text_on_sample :
exists r,
  generate_mosaic_script no_digits two_clusters "/data" "mosaic.sh" "aoi" None
    = Returned r
  /\ split_lines (script_text r) = script_lines r
  /\ read_invocations (split_lines (script_text r)) = listing (sorted_clusters r).
Proof.
apply (@generate_mosaic_script_text no_digits (fun _ => eq_refl) two_clusters "/data"
         "mosaic.sh" "aoi" None).
- repeat constructor; discriminate.
- reflexivity.
- reflexivity.
- reflexivity.
- repeat constructor.
Defined.

Lemma main_output_directory_on_sample :
nth_error (script_lines office_script) 2
  = Some "# Auto-generated mosaic script for sumbar1"
/\ nth_error (script_lines office_script) 8 = Some ("INPUT_DIR=" ++ quoted "/data")%string
/\ nth_error (script_lines office_script) 9
   = Some ("OUTPUT_DIR=" ++ quoted (path_join "/data" "mosaic_sumbar1"))%string.
Proof.
apply (@main_output_directory float bound_of widest reaches_west mean west_cluster
         no_digits any_dir shapefile_scenes office command office_script
         "aoi" "sumbar1" "geojson"); vm_compute; reflexivity.
Defined.
End FurtherSamples.
